(** * simple_zpl2: the ZPL II label builder of [simple_zpl2/formatter.py]

    A shallow embedding of the class [Formatter].  The object's only
    attribute is the list [self.zpl] of text fragments, so a method is a
    function from that list to an outcome: either the method returned, or
    it raised, and in both cases the list as the method left it (Python
    does not roll back the appends made before a [raise]). *)

From Stdlib Require Import ZArith QArith String Ascii List Bool Lia.
From Stdlib Require Import DecimalString.
From Stdlib.Strings Require Import Byte.
Import ListNotations.

Local Open Scope string_scope.
Local Open Scope Z_scope.

(** ** Python builtins used by the formatter

    A Python [str] is modelled by a Rocq [string] whose characters are the
    code points below 256; [len] is the number of code points. *)
Module Py.

(** [str(i)] for an [int]. *)
Definition str_int (z : Z) : string := NilZero.string_of_int (Z.to_int z).

(** [len(s)]. *)
Definition len (s : string) : Z := Z.of_nat (String.length s).

(** [sep.join(l)]. *)
Definition join (sep : string) (l : list string) : string := String.concat sep l.

(** [s[:n]]. *)
Definition slice_to (n : nat) (s : string) : string := substring 0 n s.

Definition code (c : ascii) : N := N_of_ascii c.

Definition between (lo hi : N) (c : ascii) : bool :=
  ((lo <=? code c) && (code c <=? hi))%N.

(** One character of [str.isdigit]: the decimal digits and the
    superscript digits of Latin-1. *)
Definition isdigit_char (c : ascii) : bool :=
  between 48 57 c || between 178 179 c || between 185 185 c.

(** One character of [str.isalnum]: letters, digits and the vulgar
    fractions of Latin-1. *)
Definition isalnum_char (c : ascii) : bool :=
  isdigit_char c
  || between 65 90 c || between 97 122 c
  || between 170 170 c || between 181 181 c || between 186 186 c
  || between 188 190 c
  || between 192 214 c || between 216 246 c || between 248 255 c.

Fixpoint all_chars (p : ascii -> bool) (s : string) : bool :=
  match s with
  | EmptyString => true
  | String c s' => p c && all_chars p s'
  end.

Definition nonempty (s : string) : bool :=
  match s with EmptyString => false | String _ _ => true end.

(** [s.isdigit()] and [s.isalnum()]: false on the empty string. *)
Definition isdigit (s : string) : bool := nonempty s && all_chars isdigit_char s.
Definition isalnum (s : string) : bool := nonempty s && all_chars isalnum_char s.

Fixpoint zeros (n : nat) : string :=
  match n with
  | O => EmptyString
  | S n' => String "0" (zeros n')
  end.

(** [s.zfill(width)]: zeros go after a leading sign. *)
Definition zfill (width : nat) (s : string) : string :=
  let pad := (width - String.length s)%nat in
  match pad, s with
  | O, _ => s
  | _, String "+" s' => String "+" (zeros pad ++ s')
  | _, String "-" s' => String "-" (zeros pad ++ s')
  | _, _ => zeros pad ++ s
  end.

Definition newline : ascii := "010"%char.

(** [s.replace('\n', new)]: the pattern is one character long, so the
    replacement goes character by character. *)
Fixpoint replace_newline (new : string) (s : string) : string :=
  match s with
  | EmptyString => EmptyString
  | String c s' =>
      if Ascii.eqb c newline then new ++ replace_newline new s'
      else String c (replace_newline new s')
  end.

(** [repr] of a [str] that holds no quote, backslash or control
    character, which is the case of every member of every [valid_values]
    of the source. *)
Definition repr_str (s : string) : string := "'" ++ s ++ "'".

(** [str(l)] for a list of such strings. *)
Definition str_list (l : list string) : string :=
  "[" ++ join ", " (map repr_str l) ++ "]".

(** [x in l] for strings. *)
Definition mem (x : string) (l : list string) : bool :=
  existsb (String.eqb x) l.

(** A number passed where the source expects a decimal: an [int], or a
    finite [float] given by its exact rational value. *)
Inductive num : Type :=
| NInt (z : Z)
| NFloat (q : Q).

Definition num_value (v : num) : Q :=
  match v with NInt z => inject_Z z | NFloat q => q end.

(** [lo <= v <= hi] for [int] bounds; Python compares an [int] with a
    [float] exactly. *)
Definition num_in_range (lo hi : Z) (v : num) : bool :=
  Qle_bool (inject_Z lo) (num_value v) && Qle_bool (num_value v) (inject_Z hi).

(** The number of tenths nearest to [q], ties to even: [round(x, 1)] on
    a float rounds its exact value correctly. *)
Definition round_tenths (q : Q) : Z :=
  let n := 10 * Qnum q in
  let d := Z.pos (Qden q) in
  let t := n / d in
  let r := n mod d in
  match 2 * r ?= d with
  | Lt => t
  | Gt => t + 1
  | Eq => if Z.even t then t else t + 1
  end.

(** [str] of a float that is a whole number of tenths (below 1e16 in
    magnitude and not a negative zero). *)
Definition str_tenths (t : Z) : string :=
  (if t <? 0 then "-" else "")
  ++ str_int (Z.abs t / 10) ++ "." ++ str_int (Z.abs t mod 10).

(** [str(round(v, 1))]: [round] of an [int] is that [int]. *)
Definition str_round1 (v : num) : string :=
  match v with
  | NInt z => str_int z
  | NFloat q => str_tenths (round_tenths q)
  end.

(** One code point below 256 in UTF-8. *)
Definition utf8_char (c : ascii) : list byte :=
  if (code c <? 128)%N then [byte_of_ascii c]
  else [byte_of_ascii (ascii_of_N (192 + code c / 64));
        byte_of_ascii (ascii_of_N (128 + code c mod 64))].

(** [bytes(s, 'utf-8')]. *)
Fixpoint utf8 (s : string) : list byte :=
  match s with
  | EmptyString => []
  | String c s' => (utf8_char c ++ utf8 s')%list
  end.

End Py.

(** ** The class [Formatter] *)
Module Formatter.
Import Py.

(** The exceptions the formatter raises or provokes. *)
Inductive exn : Type :=
| ValueError (msg : string)
| AttributeError
| NotImplementedError
| TypeError.

(** [self.zpl]. *)
Definition stream : Type := list string.

Inductive outcome (A : Type) : Type :=
| Returned (a : A) (zpl : stream)
| Raised (e : exn) (zpl : stream).
Arguments Returned {A} a zpl.
Arguments Raised {A} e zpl.

(** A method body, run on [self.zpl]. *)
Definition M (A : Type) : Type := stream -> outcome A.

Definition ret {A} (a : A) : M A := fun zpl => Returned a zpl.

Definition bind {A B} (m : M A) (k : A -> M B) : M B :=
  fun zpl =>
    match m zpl with
    | Returned a zpl' => k a zpl'
    | Raised e zpl' => Raised e zpl'
    end.

Definition raise {A} (e : exn) : M A := fun zpl => Raised e zpl.

(** [self.zpl.append(fragment)]. *)
Definition append (fragment : string) : M unit :=
  fun zpl => Returned tt (zpl ++ [fragment])%list.

Notation "m1 ;; m2" := (bind m1 (fun _ => m2))
  (at level 61, right associativity).
Notation "x <- m1 ;; m2" := (bind m1 (fun x => m2))
  (at level 61, m1 at next level, right associativity).

(** [if e is None: return], then the rest with the value of [e]. *)
Notation "'given' x := e 'in' k" :=
  (match e with None => ret tt | Some x => k end)
  (at level 61, x name, e at next level, right associativity).

(** A value passed where the source coerces with [str()]. *)
Inductive pyval : Type :=
| VInt (z : Z)
| VStr (s : string).

Definition str (v : pyval) : string :=
  match v with VInt z => str_int z | VStr s => s end.

Definition START : string := "^XA".
Definition END_ : string := "^XZ".

Definition _add_comma (comma : bool) : M unit :=
  if comma then append "," else ret tt.

Definition _newline : M unit := append (String newline EmptyString).

(** The decorator [_newline_after]. *)
Definition _newline_after (func : M unit) : M unit :=
  func ;; _newline.

(** [Formatter()]: [self.zpl = [self.START]], then [self._newline()]. *)
Definition __init__ : stream :=
  match _newline [START] with
  | Returned _ zpl => zpl
  | Raised _ zpl => zpl
  end.

(** [int(value)] leaves an [int] as it is. *)
Definition _add_int (value : Z) : M unit := append (str_int value).

Definition _add_int_value_in_range
    (value : Z) (field : string) (min_value max_value : Z)
    (comma reset_back : bool) : M unit :=
  value <- (if reset_back then
              let value := Z.min max_value value in
              let value := Z.max min_value value in
              ret value
            else
              if negb ((min_value <=? value) && (value <=? max_value)) then
                raise (ValueError (field ++ " must be between " ++ str_int min_value
                                   ++ " and " ++ str_int max_value ++ " (inclusive)"))
              else ret value) ;;
  _add_comma comma ;;
  _add_int value.

Definition _add_value_in_list
    (value : pyval) (field : string) (valid_values : list pyval) (comma : bool) : M unit :=
  let valid_values := map str valid_values in
  if negb (mem (str value) valid_values) then
    raise (ValueError (field ++ " must be in " ++ str_list valid_values))
  else
    _add_comma comma ;;
    append (str value).

Definition _add_orientation (orientation : pyval) (comma : bool) : M unit :=
  _add_value_in_list orientation "orientation"
    [VStr "N"; VStr "R"; VStr "I"; VStr "B"] comma.

Definition _add_yes_no (value : pyval) (field : string) (comma : bool) : M unit :=
  _add_value_in_list value field [VStr "Y"; VStr "N"] comma.

Definition _add_line_color (color : pyval) (comma : bool) : M unit :=
  _add_value_in_list color "color" [VStr "B"; VStr "W"] comma.

Definition _add_decimal_value_in_range
    (value : num) (field : string) (min_value max_value : Z) (comma : bool) : M unit :=
  if negb (num_in_range min_value max_value value) then
    raise (ValueError (field ++ " must be between " ++ str_int min_value
                       ++ " and " ++ str_int max_value ++ " by 0.1"))
  else
    _add_comma comma ;;
    append (str_round1 value).

Definition _verify_data_numeric (data : string) : M unit :=
  if negb (isdigit data) then raise (ValueError "Data must contain only digits.")
  else ret tt.

(** Control Printing Quantity and Pausing (^PQ). *)
Definition add_print_quantity
    (quantity pause_and_cut_count replicates_of_serial : option Z)
    (override_pause cut_on_error : option pyval) : M unit :=
  _newline_after (
    append "^PQ" ;;
    given quantity := quantity in
    _add_int_value_in_range quantity "quantity" 1 99999999 false false ;;
    given pause_and_cut_count := pause_and_cut_count in
    _add_int_value_in_range pause_and_cut_count "pause_and_cut_count" 0 99999999 true false ;;
    given replicates_of_serial := replicates_of_serial in
    _add_int_value_in_range replicates_of_serial "replicates_of_serial" 0 99999999 true false ;;
    given override_pause := override_pause in
    _add_yes_no override_pause "override_pause" true ;;
    given cut_on_error := cut_on_error in
    _add_yes_no cut_on_error "cut_on_error" true).

(** What is passed as field data: one string, or a list or tuple of
    strings. *)
Inductive payload : Type :=
| Text (s : string)
| Segments (l : list string).

(** [sep.join(p)]: joining a string joins its characters. *)
Definition join_payload (sep : string) (p : payload) : string :=
  match p with
  | Segments l => join sep l
  | Text s => join sep (map (fun c => String c EmptyString) (list_ascii_of_string s))
  end.

(** ['{}'.format(p)]. *)
Definition format_payload (p : payload) : string :=
  match p with
  | Text s => s
  | Segments l => str_list l
  end.

(** [data.replace] exists on a string and on neither a list nor a
    tuple. *)
Definition _format_field_data (data : payload) (replace_newlines : bool) : M payload :=
  if replace_newlines then
    match data with
    | Text s => ret (Text (replace_newline "\&" s))
    | Segments _ => raise AttributeError
    end
  else ret data.

(** Field Data for Text or Barcode (^FD with 1-many ^FS). *)
Definition add_field_data (data_list : payload) (replace_newlines : bool) : M unit :=
  _newline_after (
    let data := data_list in
    data <- match data with
            | Segments _ =>
                formatted <- _format_field_data data replace_newlines ;;
                ret (Text (join_payload "^FS" formatted))
            | Text _ => _format_field_data data replace_newlines
            end ;;
    append ("^FD" ++ format_payload data ++ "^FS")).

Definition add_field_data_ean_13 (data : pyval) : M unit :=
  let data := str data in
  _verify_data_numeric data ;;
  let data := if len data >? 12 then slice_to 12 data else data in
  add_field_data (Text (zfill 12 data)) false.

(** [x in values] by [==]: an [int] never equals a [str]. *)
Definition pyval_eqb (a b : pyval) : bool :=
  match a, b with
  | VInt x, VInt y => x =? y
  | VStr x, VStr y => String.eqb x y
  | _, _ => false
  end.

Definition value_in (x : option pyval) (values : list pyval) : bool :=
  match x with
  | None => false
  | Some v => existsb (pyval_eqb v) values
  end.

Definition add_field_data_msi (data : string) (check_digit : option pyval) : M unit :=
  let max_len := if value_in check_digit [VStr "B"; VStr "C"; VStr "D"] then 13 else 14 in
  if len data >? max_len then
    raise (ValueError
      "msi barcode data has maximum len of 13 for check_digit B,C,D or 14 for check_digit A.")
  else
    _verify_data_numeric data ;;
    add_field_data (Text data) false.

(** MSI Bar Code (^BM). *)
Definition add_barcode_msi
    (orientation check_digit : option pyval) (height : option Z)
    (print_text text_above insert_check_digit : option pyval) : M unit :=
  _newline_after (
    append "^BM" ;;
    given orientation := orientation in
    _add_orientation orientation false ;;
    given check_digit := check_digit in
    _add_value_in_list check_digit "check_digit"
      [VStr "A"; VStr "B"; VStr "C,"; VStr "D"] true ;;
    given height := height in
    _add_int_value_in_range height "height" 1 32000 true false ;;
    given print_text := print_text in
    _add_yes_no print_text "print_text" true ;;
    given text_above := text_above in
    _add_yes_no text_above "text_above" true ;;
    given insert_check_digit := insert_check_digit in
    _add_yes_no insert_check_digit "insert_check_digit" true).

(** The loop over the blocks of [additional_data]. *)
Fixpoint check_blocks (additional_data : list string) : M unit :=
  match additional_data with
  | [] => ret tt
  | ad :: rest =>
      if len ad >=? 25 then
        raise (ValueError "additional_data blocks are limited to 25 characters.")
      else check_blocks rest
  end.

(** Add data field for tlc39 barcode. *)
Definition add_field_data_tlc39
    (eci_number : string) (serial_number : option string)
    (additional_data : option payload) : M unit :=
  _newline_after (
    let data := [] in
    if negb ((len eci_number =? 6) && isdigit eci_number) then
      raise (ValueError "eci_number must be exactly 6 digital")
    else
    let data := (data ++ [eci_number])%list in
    match serial_number with
    | None => add_field_data (Text (join "," data)) false
    | Some serial_number =>
    if negb ((1 <=? len serial_number) && (len serial_number <=? 26)
             && isalnum serial_number) then
      raise (ValueError "serial_number must be alphanumeric between 1 and 26 characters.")
    else
    let data := (data ++ [serial_number])%list in
    match additional_data with
    | None => add_field_data (Text (join "," data)) false
    | Some additional_data =>
    ad_joined <- match additional_data with
                 | Segments blocks =>
                     check_blocks blocks ;;
                     ret (join "," blocks)
                 | Text block =>
                     if len block >? 25 then
                       raise (ValueError
                         "additional_data blocks are limited to 25 characters.")
                     else ret block
                 end ;;
    if len ad_joined >? 139 then
      raise (ValueError
        ("additional_data is limited to 139 characters after joining with commas."
         ++ "Data sent length is " ++ str_int (len ad_joined)))
    else
    if negb (isalnum ad_joined) then
      raise (ValueError "additional_data must be alphanumeric.")
    else
    let data := (data ++ [ad_joined])%list in
    add_field_data (Text (join "," data)) false
    end
    end).

Definition add_field_data_upc_a (data : string) : M unit :=
  _verify_data_numeric data ;;
  let data := if len data <? 11 then zfill 11 data else data in
  add_field_data (Text (slice_to 11 data)) false.

(** Set defaults for bar codes (^BY). *)
Definition add_barcode_default
    (module_width : option Z) (wide_narrow_ratio : option num)
    (height : option Z) : M unit :=
  _newline_after (
    append "^BY" ;;
    given width := module_width in
    _add_int_value_in_range width "module_width" 1 10 false false ;;
    given wide_narrow_ratio := wide_narrow_ratio in
    _add_decimal_value_in_range wide_narrow_ratio "wide_narrow_ratio" 2 3 true ;;
    given width := module_width in
    _add_int_value_in_range width "module_width" 1 10 true false ;;
    given height := height in
    _add_int_value_in_range height "height" 1 200 true false).

(** Produce Circle on Label (^GC). *)
Definition add_graphic_circle
    (diameter border : option Z) (color : option pyval) : M unit :=
  _newline_after (
    append "^GC" ;;
    given diameter := diameter in
    _add_int_value_in_range diameter "diameter" 3 4095 false true ;;
    given border := border in
    _add_int_value_in_range border "border" 1 4095 true true ;;
    given color := color in
    _add_line_color color true).

(** The property [zpl_text]: the fragments and [END], concatenated. *)
Definition zpl_text : M string :=
  fun zpl => Returned (join "" (zpl ++ [END_])%list) zpl.

(** The property [zpl_bytes]. *)
Definition zpl_bytes : M (list byte) :=
  text <- zpl_text ;;
  ret (utf8 text).

(** *** The rest of the class *)

(** The truth value of an argument in [if x:]: [None], [0] and the empty
    string are false. *)
Definition truthy (x : option pyval) : bool :=
  match x with
  | None => false
  | Some (VInt z) => negb (z =? 0)
  | Some (VStr s) => nonempty s
  end.

Definition truthy_int (x : option Z) : bool :=
  match x with
  | None => false
  | Some z => negb (z =? 0)
  end.

Definition truthy_str (x : option string) : bool :=
  match x with
  | None => false
  | Some s => nonempty s
  end.

(** [c in set(characters)]. *)
Fixpoint char_in (c : ascii) (characters : string) : bool :=
  match characters with
  | EmptyString => false
  | String d rest => Ascii.eqb c d || char_in c rest
  end.

(** The double quote. *)
Definition quote : string := String "034"%char EmptyString.


Definition _verify_legal_characters (data characters : string) : M unit :=
  let valid_chars := characters in
  if negb (all_chars (fun char => char_in char valid_chars) data) then
    raise (ValueError ("Illegal character found in data. Must contain only "
                       ++ quote ++ characters ++ quote))
  else ret tt.

Definition _verify_data_alphanumeric (data : string) : M unit :=
  if negb (isalnum data) then
    raise (ValueError "Data must contain only alphanumeric characters.")
  else ret tt.

(** Specify font to use in text field (^A). *)
Definition add_font
    (font_name : string) (orientation : option pyval)
    (character_height width : option Z) : M unit :=
  _newline_after (
    append "^A" ;;
    append font_name ;;
    given orientation := orientation in
    _add_orientation orientation true ;;
    given character_height := character_height in
    _add_int_value_in_range character_height "character_height" 10 32000 true false ;;
    if truthy_int width then
      given width := width in
      _add_int_value_in_range width "width" 10 32000 true false
    else ret tt).

(** Label Home Position (^LH). *)
Definition add_label_home (x_pos y_pos : option Z) : M unit :=
  _newline_after (
    append "^LH" ;;
    given x_pos := x_pos in
    _add_int_value_in_range x_pos "x_pos" 0 32000 false false ;;
    given y_pos := y_pos in
    _add_int_value_in_range y_pos "y_pos" 0 32000 true false).

(** Field Origin (^FO). *)
Definition add_field_origin (x_pos y_pos : option Z) (justification : option pyval) : M unit :=
  _newline_after (
    append "^FO" ;;
    given x_pos := x_pos in
    _add_int_value_in_range x_pos "x_pos" 0 32000 false false ;;
    given y_pos := y_pos in
    _add_int_value_in_range y_pos "y_pos" 0 32000 true false ;;
    given justification := justification in
    _add_value_in_list justification "justification" [VInt 0; VInt 1; VInt 2] true).

(** Field Block (^FB). *)
Definition add_field_block
    (width max_lines dots_between_lines : option Z)
    (text_justification : option pyval) (hanging_indent : option Z) : M unit :=
  _newline_after (
    append "^FB" ;;
    given width := width in
    _add_int width ;;
    given max_lines := max_lines in
    _add_int_value_in_range max_lines "max_lines" 1 9999 true false ;;
    given dots_between_lines := dots_between_lines in
    _add_int_value_in_range dots_between_lines "dots_between_lines" (-9999) 9999 true false ;;
    given text_justification := text_justification in
    _add_value_in_list text_justification "text_justification"
      [VStr "L"; VStr "C"; VStr "R"; VStr "J"] true ;;
    given hanging_indent := hanging_indent in
    _add_int_value_in_range hanging_indent "hanging_indent" 0 9999 true false).

(** Common Barcode output for 1D barcodes. *)
Definition _add_standard_1d_barcode
    (zpl_code : string) (orientation check_digit_one : option pyval)
    (height : option Z) (print_text text_above check_digit_two : option pyval) : M unit :=
  append ("^" ++ zpl_code) ;;
  given orientation := orientation in
  _add_orientation orientation false ;;
  (if truthy check_digit_one then
     given check_digit_one := check_digit_one in
     _add_yes_no check_digit_one "check_digit" true
   else ret tt) ;;
  given height := height in
  _add_int_value_in_range height "height" 1 32000 true false ;;
  given print_text := print_text in
  _add_yes_no print_text "print_text" true ;;
  given text_above := text_above in
  _add_yes_no text_above "text_above" true ;;
  given check_digit_two := check_digit_two in
  _add_yes_no check_digit_two "check_digit" true.

(** Aztec Barcode (^B0). *)
Definition add_barcode_aztec
    (orientation : option pyval) (magnification : option Z) (ecic : option pyval)
    (ec_symbol_size : option Z) (menu_symbol : option pyval)
    (number_of_symbols : option Z) (structured_id_append : option string) : M unit :=
  _newline_after (
    append "^B0" ;;
    given orientation := orientation in
    _add_orientation orientation false ;;
    given magnification := magnification in
    _add_int_value_in_range magnification "magnification" 1 10 true false ;;
    given ecic := ecic in
    _add_yes_no ecic "ecic" true ;;
    given ec_symbol_size := ec_symbol_size in
    if negb (((0 <=? ec_symbol_size) && (ec_symbol_size <=? 99))
             || ((101 <=? ec_symbol_size) && (ec_symbol_size <=? 104))
             || ((201 <=? ec_symbol_size) && (ec_symbol_size <=? 232))
             || (ec_symbol_size =? 300)) then
      raise (ValueError "ec_symbol_size must be 0, 1-99, 101-104, 201-232, or 300.")
    else
    let ec_string :=
      if (1 <=? ec_symbol_size) && (ec_symbol_size <=? 9)
      then "0" ++ str_int ec_symbol_size
      else str_int ec_symbol_size in
    _add_comma true ;;
    append ec_string ;;
    given menu_symbol := menu_symbol in
    _add_yes_no menu_symbol "menu_symbol" true ;;
    given number_of_symbols := number_of_symbols in
    _add_int_value_in_range number_of_symbols "number_of_symbols" 1 26 true false ;;
    given structured_id_append := structured_id_append in
    if len structured_id_append >? 24 then
      raise (ValueError "structured_id_append length maximum is 24.")
    else
    _add_comma true ;;
    append structured_id_append).

Definition add_field_data_code_11 (data : string) : M unit :=
  _verify_legal_characters data "0123456789-" ;;
  add_field_data (Text data) false.

(** Code 11 Bar Code (^B1). *)
Definition add_barcode_code_11
    (orientation check_digit : option pyval) (height : option Z)
    (print_text text_above : option pyval) : M unit :=
  _newline_after (
    _add_standard_1d_barcode "B1" orientation check_digit height print_text text_above None).

Definition add_field_data_interleaved_2_of_5 (data : string) : M unit :=
  _verify_data_numeric data ;;
  add_field_data (Text data) false.

(** Interleaved 2 of 5 Bar Code (^B2). *)
Definition add_barcode_interleaved_2_of_5
    (orientation : option pyval) (height : option Z)
    (print_text text_above check_digit : option pyval) : M unit :=
  _newline_after (
    _add_standard_1d_barcode "B2" orientation None height print_text text_above check_digit).

Definition add_field_data_code_39 (data : string) (extended_ascii : bool) : M unit :=
  let normal_set := "01234567890ABCDEFGHIJKLMNOPQRSTUVWXYZ-.$/+% " in
  if extended_ascii then raise NotImplementedError
  else
    _verify_legal_characters data normal_set ;;
    add_field_data (Text data) false.

(** Code 39 Bar Code (^B3). *)
Definition add_barcode_code_39
    (orientation check_digit : option pyval) (height : option Z)
    (print_text text_above : option pyval) : M unit :=
  _newline_after (
    _add_standard_1d_barcode "B3" orientation check_digit height print_text text_above None).

(** [x in (None, 'Y', 'N')]. *)
Definition none_or_yes_no (x : option pyval) : bool :=
  match x with
  | None => true
  | Some _ => value_in x [VStr "Y"; VStr "N"]
  end.

(** Code 49 Bar Code (^B4). *)
Definition add_barcode_code_49
    (orientation : option pyval) (height_multiplier : option Z)
    (print_text text_above starting_mode : option pyval) : M unit :=
  _newline_after (
    append "^B4" ;;
    given orientation := orientation in
    _add_orientation orientation false ;;
    given height_multiplier := height_multiplier in
    _add_int height_multiplier ;;
    given print_text := print_text in
    if negb (value_in (Some print_text) [VStr "Y"; VStr "N"]) then
      raise (ValueError "print_text should be Y or N")
    else
    if negb (none_or_yes_no text_above) then
      raise (ValueError "text_above should be Y or N")
    else
    let interpretation_line :=
      if pyval_eqb print_text (VStr "Y") then
        if value_in text_above [VStr "Y"] then "A" else "B"
      else "N" in
    _add_comma true ;;
    append interpretation_line ;;
    given starting_mode := starting_mode in
    _add_value_in_list starting_mode "starting_mode"
      [VInt 0; VInt 1; VInt 2; VInt 3; VInt 4; VInt 5; VStr "A"] true).

Definition add_field_data_planet_code (data : string) : M unit :=
  _verify_data_numeric data ;;
  add_field_data (Text data) false.

(** Planet Code Bar Code (^B5). *)
Definition add_barcode_planet_code
    (orientation : option pyval) (height : option Z)
    (print_text text_above : option pyval) : M unit :=
  _newline_after (
    _add_standard_1d_barcode "B5" orientation None height print_text text_above None).

(** PDF417 Bar Code (^B7). *)
Definition add_barcode_pdf417
    (orientation : option pyval) (height security_level data_column_count row_count : option Z)
    (truncate : option pyval) : M unit :=
  _newline_after (
    append "^B7" ;;
    given orientation := orientation in
    _add_orientation orientation false ;;
    given height := height in
    _add_int height ;;
    given security_level := security_level in
    _add_int_value_in_range security_level "security_level" 0 8 true false ;;
    given data_column_count := data_column_count in
    _add_int_value_in_range data_column_count "data_column_count" 1 30 true false ;;
    given row_count := row_count in
    _add_int_value_in_range row_count "row_count" 3 90 true false ;;
    given truncate := truncate in
    _add_yes_no truncate "truncate" true).

Definition add_field_data_ean_8 (data : string) : M unit :=
  _verify_data_numeric data ;;
  add_field_data (Text data) false.

(** EAN 8 Bar Code (^B8). *)
Definition add_barcode_ean_8
    (orientation : option pyval) (height : option Z)
    (print_text text_above : option pyval) : M unit :=
  _newline_after (
    _add_standard_1d_barcode "B8" orientation None height print_text text_above None).

Definition add_field_data_upc_e (data : string) : M unit :=
  _verify_data_numeric data ;;
  add_field_data (Text data) false.

(** UPC-E Bar Code (^B9). *)
Definition add_barcode_upc_e
    (orientation : option pyval) (height : option Z)
    (print_text text_above check_digit : option pyval) : M unit :=
  _newline_after (
    _add_standard_1d_barcode "B9" orientation None height print_text text_above check_digit).

Definition add_field_data_code_93 (data : string) (extended_ascii : bool) : M unit :=
  let normal_set := "01234567890ABCDEFGHIJKLMNOPQRSTUVWXYZ-.$/+%&,() " in
  if extended_ascii then raise NotImplementedError
  else
    _verify_legal_characters data normal_set ;;
    add_field_data (Text data) false.

(** Code 93 Bar Code (^BA). *)
Definition add_barcode_code_93
    (orientation : option pyval) (height : option Z)
    (print_text text_above check_digit : option pyval) : M unit :=
  _newline_after (
    _add_standard_1d_barcode "BA" orientation None height print_text text_above check_digit).

(** CODABLOCK Bar Code (^BB); [mode] defaults to ['F']. *)
Definition add_barcode_codablock
    (orientation : option pyval) (height : option Z) (security_level : option pyval)
    (characters_per_row row_count : option Z) (mode : pyval) : M unit :=
  _newline_after (
    append "^BB" ;;
    given orientation := orientation in
    _add_orientation orientation false ;;
    given height := height in
    _add_int_value_in_range height "height" 2 32000 true false ;;
    given security_level := security_level in
    _add_yes_no security_level "security_level" true ;;
    given characters_per_row := characters_per_row in
    _add_int_value_in_range characters_per_row "characters_per_row" 2 62 true false ;;
    given row_count := row_count in
    (if value_in (Some mode) [VStr "E"; VStr "F"] then
       _add_int_value_in_range row_count "row_count for type E and F" 2 4 true false
     else if pyval_eqb mode (VStr "A") then
       _add_int_value_in_range row_count "row_count for type A" 1 22 true false
     else ret tt) ;;
    _add_value_in_list mode "mode" [VStr "A"; VStr "E"; VStr "F"] true).

(** Code 128 Barcode (^BC). *)
Definition add_barcode_code_128
    (orientation : option pyval) (height : option Z)
    (print_text text_above check_digit : option pyval) : M unit :=
  _newline_after (
    _add_standard_1d_barcode "BC" orientation None height print_text text_above check_digit).

(** UPS MaxiCode Bar Code (^BD). *)
Definition add_barcode_ups_maxicode (mode symbol_number symbol_count : option Z) : M unit :=
  _newline_after (
    append "^BD" ;;
    given mode := mode in
    _add_int_value_in_range mode "mode" 2 6 false false ;;
    given symbol_number := symbol_number in
    _add_int_value_in_range symbol_number "symbol_number" 1 8 true false ;;
    given symbol_count := symbol_count in
    _add_int_value_in_range symbol_count "symbol_count" 1 8 true false).

(** EAN-13 Bar Code (^BE). *)
Definition add_barcode_ean_13
    (orientation : option pyval) (height : option Z)
    (print_text text_above : option pyval) : M unit :=
  _newline_after (
    _add_standard_1d_barcode "BE" orientation None height print_text text_above None).

(** MicroPDF417 Bar Code (^BF). *)
Definition add_barcode_micropdf_417
    (orientation : option pyval) (height mode : option Z) : M unit :=
  _newline_after (
    append "^BF" ;;
    given orientation := orientation in
    _add_orientation orientation false ;;
    given height := height in
    _add_int_value_in_range height "height" 1 9999 true false ;;
    given mode := mode in
    _add_int_value_in_range mode "mode" 0 33 true false).

Definition add_field_data_industrial_2_of_5 (data : string) : M unit :=
  _verify_data_numeric data ;;
  add_field_data (Text data) false.

Definition add_field_data_standard_2_of_5 (data : string) : M unit :=
  _verify_data_numeric data ;;
  add_field_data (Text data) false.

(** Standard 2 of 5 Bar Code (^BJ). *)
Definition add_barcode_standard_2_of_5
    (orientation : option pyval) (height : option Z)
    (print_text text_above : option pyval) : M unit :=
  _newline_after (
    _add_standard_1d_barcode "BJ" orientation None height print_text text_above None).

Definition add_field_data_ansi_codabar
    (data : string) (start_char stop_char : option string) : M unit :=
  let allowed := "0123456789-:.$/+" in
  let allowed :=
    match start_char, stop_char with
    | Some start, Some stop =>
        if truthy_str start_char && truthy_str stop_char
        then allowed ++ start ++ stop
        else allowed ++ "ABCD"
    | _, _ => allowed ++ "ABCD"
    end in
  _verify_legal_characters data "0123456789-:.$/+" ;;
  add_field_data (Text data) false.

(** ANSI Codabar Bar Code (^BK). *)
Definition add_barcode_ansi_codabar
    (orientation : option pyval) (height : option Z)
    (print_text text_above start_character stop_character : option pyval) : M unit :=
  _newline_after (
    _add_standard_1d_barcode "BK" orientation (Some (VStr "N")) height
      print_text text_above None ;;
    given start_character := start_character in
    _add_value_in_list start_character "start_character"
      [VStr "A"; VStr "B"; VStr "C"; VStr "D"] true ;;
    given stop_character := stop_character in
    _add_value_in_list stop_character "stop_character"
      [VStr "A"; VStr "B"; VStr "C"; VStr "D"] true).

Definition add_field_data_logmars (data : string) : M unit :=
  add_field_data_code_39 data false.

(** LOGMARS Bar Code (^BL). *)
Definition add_barcode_logmars
    (orientation : option pyval) (height : option Z) (text_above : option pyval) : M unit :=
  _newline_after (
    _add_standard_1d_barcode "BJ" orientation None height None None None ;;
    given text_above := text_above in
    _add_yes_no text_above "text_above" true).

Definition add_field_data_plessey (data : string) : M unit :=
  let allowed := "0123456789ABCDEF" in
  _verify_legal_characters data allowed ;;
  add_field_data (Text data) false.

(** Plessey Bar Code (^BP). *)
Definition add_barcode_plessey
    (orientation check_digit : option pyval) (height : option Z)
    (print_text text_above : option pyval) : M unit :=
  _newline_after (
    _add_standard_1d_barcode "BP" orientation check_digit height print_text text_above None).

(** QR Barcode (^BQ). *)
Definition add_barcode_qr
    (model : option pyval) (magnification : option Z)
    (error_correction : option pyval) (mask_value : option Z) : M unit :=
  _newline_after (
    append "^BQN" ;;
    given model := model in
    _add_value_in_list model "model" [VInt 1; VInt 2] true ;;
    given magnification := magnification in
    _add_int_value_in_range magnification "magnification" 1 10 true false ;;
    given error_correction := error_correction in
    _add_value_in_list error_correction "error_correction"
      [VStr "H"; VStr "Q"; VStr "M"; VStr "L"] true ;;
    given mask_value := mask_value in
    _add_int_value_in_range mask_value "mask_value" 0 7 true false).

(** GS1 Databar Bar Code (^BR). *)
Definition add_barcode_gs1_batabar
    (orientation : option pyval) (symbology_type magnification : option Z)
    (separator_height : option pyval) (height width : option Z) : M unit :=
  _newline_after (
    append "^BR" ;;
    given orientation := orientation in
    _add_orientation orientation false ;;
    given symbology_type := symbology_type in
    _add_int_value_in_range symbology_type "symbology_type" 1 12 true false ;;
    given magnification := magnification in
    _add_int_value_in_range magnification "magnification" 1 10 true false ;;
    given separator_height := separator_height in
    _add_value_in_list separator_height "separator_height" [VInt 1; VInt 2] true ;;
    given height := height in
    _add_int_value_in_range height "height" 1 32000 true false ;;
    given width := width in
    if negb (symbology_type =? 6) then ret tt
    else
    if width mod 2 =? 1 then raise (ValueError "width must be even.")
    else
    _add_int_value_in_range width "width" 2 22 true false).

Definition add_field_data_upc_ean_extensions (data : string) : M unit :=
  if negb ((len data =? 2) || (len data =? 5)) then
    raise (ValueError "UPC/EAN Extension barcode is limited to 2 or 5 digits only.")
  else
    _verify_data_numeric data ;;
    add_field_data (Text data) false.

(** UPC/EAN Extensions Bar Code (^BS). *)
Definition add_barcode_upc_ean_extensions
    (orientation : option pyval) (height : option Z)
    (print_text text_above : option pyval) : M unit :=
  _newline_after (
    _add_standard_1d_barcode "BS" orientation None height print_text text_above None).

(** TLC39 Bar Code (^BT). *)
Definition add_barcode_tlc39
    (orientation : option pyval) (code_39_width : option Z) (code_39_ratio : option num)
    (code_39_height micropdf417_height micropdf417_width : option Z) : M unit :=
  _newline_after (
    append "^BT" ;;
    given orientation := orientation in
    _add_orientation orientation false ;;
    given code_39_width := code_39_width in
    _add_int_value_in_range code_39_width "code_39_width" 1 10 true false ;;
    given code_39_ratio := code_39_ratio in
    _add_decimal_value_in_range code_39_ratio "code_39_ratio" 2 3 true ;;
    given code_39_height := code_39_height in
    _add_int_value_in_range code_39_height "code_39_height" 1 9999 true false ;;
    given micropdf417_height := micropdf417_height in
    _add_int_value_in_range micropdf417_height "micropdf417_height" 1 255 true false ;;
    given micropdf417_width := micropdf417_width in
    _add_int_value_in_range micropdf417_width "micropdf417_width" 1 10 true false).

(** UPC-A Bar Code (^BU). *)
Definition add_barcode_upc_a
    (orientation : option pyval) (height : option Z)
    (print_text text_above check_digit : option pyval) : M unit :=
  _newline_after (
    _add_standard_1d_barcode "BU" orientation None height print_text text_above check_digit).

(** Data Matrix Bar Code (^BX). *)
Definition add_barcode_data_matrix
    (orientation : option pyval) (height : option Z) (quality : option pyval)
    (columns rows format_id : option Z) (escape_sequence : option string)
    (aspect_ratio : option Z) : M unit :=
  _newline_after (
    append "^BX" ;;
    given orientation := orientation in
    _add_orientation orientation false ;;
    given height := height in
    _add_int_value_in_range height "height" 1 32000 true false ;;
    given quality := quality in
    _add_value_in_list quality "quality"
      [VInt 0; VInt 50; VInt 80; VInt 100; VInt 140; VInt 200] true ;;
    given columns := columns in
    (if pyval_eqb quality (VInt 200) then
       if columns mod 2 =? 1 then
         raise (ValueError "columns must be even for quality of 200.")
       else ret tt
     else
       if columns mod 2 =? 0 then
         raise (ValueError "columns must be odd for quality of (0, 50, 80, 100, 140).")
       else ret tt) ;;
    _add_int_value_in_range columns "columns" 9 49 true false ;;
    given rows := rows in
    _add_int_value_in_range rows "rows" 9 49 true false ;;
    given format_id := format_id in
    _add_int_value_in_range format_id "format_id" 1 6 true false ;;
    given escape_sequence := escape_sequence in
    if negb (len escape_sequence =? 1) then
      raise (ValueError "escape_sequence must be a single character.")
    else
    _add_comma true ;;
    append escape_sequence ;;
    given aspect_ratio := aspect_ratio in
    _add_int_value_in_range aspect_ratio "aspect_ratio" 1 2 true false).

Definition add_field_data_postal (data : string) : M unit :=
  _verify_data_numeric data ;;
  add_field_data (Text data) false.

(** Postal Bar Code (^BZ). *)
Definition add_barcode_postal
    (orientation : option pyval) (height : option Z)
    (print_text text_above : option pyval) (code_type : option Z) : M unit :=
  _newline_after (
    _add_standard_1d_barcode "BZ" orientation None height print_text text_above None ;;
    given code_type := code_type in
    _add_int_value_in_range code_type "code_type" 0 3 true false).

(** Comment Block (^FX). *)
Definition add_comment (comment_text : string) : M unit :=
  _newline_after (
    append ("^FX" ++ comment_text ++ "^FS")).

(** Produce Graphic Box on Label (^GB). *)
Definition add_graphic_box
    (width height border : option Z) (line_color : option pyval)
    (corner_rounding : option Z) : M unit :=
  _newline_after (
    append "^GB" ;;
    let use_border :=
      match border with
      | Some b => if truthy_int border then b else 1
      | None => 1
      end in
    given width := width in
    _add_int_value_in_range width "width" use_border 32000 false false ;;
    given height := height in
    _add_int_value_in_range height "height" use_border 32000 true false ;;
    given border := border in
    _add_int_value_in_range border "border" 1 32000 true false ;;
    given line_color := line_color in
    _add_line_color line_color true ;;
    given corner_rounding := corner_rounding in
    _add_int_value_in_range corner_rounding "corner_rounding" 0 8 true false).

(** [_add_int_value_in_range] under the reject policy when the value may
    be a [str]: comparing a [str] with the [int] bounds raises TypeError. *)
Definition _add_int_value_in_range_any
    (value : pyval) (field : string) (min_value max_value : Z) (comma : bool) : M unit :=
  match value with
  | VInt z => _add_int_value_in_range z field min_value max_value comma false
  | VStr _ => raise TypeError
  end.

(** [_add_standard_1d_barcode] when the caller passes a value of either
    type for the height. *)
Definition _add_standard_1d_barcode_any
    (zpl_code : string) (orientation check_digit_one height : option pyval)
    (print_text text_above check_digit_two : option pyval) : M unit :=
  append ("^" ++ zpl_code) ;;
  given orientation := orientation in
  _add_orientation orientation false ;;
  (if truthy check_digit_one then
     given check_digit_one := check_digit_one in
     _add_yes_no check_digit_one "check_digit" true
   else ret tt) ;;
  given height := height in
  _add_int_value_in_range_any height "height" 1 32000 true ;;
  given print_text := print_text in
  _add_yes_no print_text "print_text" true ;;
  given text_above := text_above in
  _add_yes_no text_above "text_above" true ;;
  given check_digit_two := check_digit_two in
  _add_yes_no check_digit_two "check_digit" true.

(** Industrial 2 of 5 Bar Code (^BI).  The call passes four positional
    arguments after the code, so the height lands in [check_digit_one],
    print_text in [height] and text_above in [print_text]. *)
Definition add_barcode_industrial_2_of_5
    (orientation height print_text text_above : option pyval) : M unit :=
  _newline_after (
    _add_standard_1d_barcode_any "BI" orientation height print_text text_above None None).

End Formatter.

Import Py Formatter.

(** ** Vocabulary of the statements *)

(** The newline fragment. *)
Definition nl : string := String newline EmptyString.

(** The fragments a validator puts in front of its value. *)
Definition separator (comma : bool) : list string :=
  if comma then [","] else [].

(** The value reads [Y] or [N]. *)
Definition yes_no (v : pyval) : Prop := str v = "Y" \/ str v = "N".

(** The value reads as one of the four orientations. *)
Definition is_orientation (v : pyval) : Prop :=
  mem (str v) ["N"; "R"; "I"; "B"] = true.

(** The nearest value of [[lo, hi]]. *)
Definition clamp (lo hi v : Z) : Z :=
  if v <? lo then lo else if hi <? v then hi else v.

(** The error of add_field_data_msi on a payload that is too long. *)
Definition msi_too_long : exn :=
  ValueError
    "msi barcode data has maximum len of 13 for check_digit B,C,D or 14 for check_digit A.".

(** Every block is shorter than 25 characters. *)
Definition blocks_under_25 (blocks : list string) : bool :=
  forallb (fun block => len block <? 25) blocks.

(** A block of 25 characters, and six blocks of 24. *)
Definition block_of_25 : string := "ABCDEFGHIJKLMNOPQRSTUVWXY".
Definition six_blocks_of_24 : list string :=
  repeat "ABCDEFGHIJKLMNOPQRSTUVWX" 6.

(** The stream an outcome leaves. *)
Definition final {A} (o : outcome A) : stream :=
  match o with
  | Returned _ zpl => zpl
  | Raised _ zpl => zpl
  end.

(** The second stream is the first one with fragments added at its end. *)
Definition extends (zpl zpl' : stream) : Prop :=
  exists added : list string, zpl' = (zpl ++ added)%list.

(** The method only appends, whether it returns or raises. *)
Definition append_only {A} (m : M A) : Prop :=
  forall zpl : stream, extends zpl (final (m zpl)).

(** When the method returns, it has appended fragments of which the last
    is a newline. *)
Definition ends_with_newline {A} (m : M A) : Prop :=
  forall (zpl : stream) (a : A) (zpl' : stream),
    m zpl = Returned a zpl' ->
    exists added : list string, zpl' = (zpl ++ added ++ [nl])%list.

(** The error of the range validator. *)
Definition range_error (field : string) (min_value max_value : Z) : exn :=
  ValueError (field ++ " must be between " ++ str_int min_value
              ++ " and " ++ str_int max_value ++ " (inclusive)").

(** The error of the enumerated validator. *)
Definition list_error (field : string) (valid_values : list pyval) : exn :=
  ValueError (field ++ " must be in " ++ str_list (map str valid_values)).

(** Every character of the data is one of the characters. *)
Definition legal (characters data : string) : bool :=
  all_chars (fun char => char_in char characters) data.

(** The error of the character set check. *)
Definition illegal_characters (characters : string) : exn :=
  ValueError ("Illegal character found in data. Must contain only "
              ++ quote ++ characters ++ quote).

Definition not_digits : exn := ValueError "Data must contain only digits.".

Definition code_39_set : string := "01234567890ABCDEFGHIJKLMNOPQRSTUVWXYZ-.$/+% ".
Definition code_93_set : string := "01234567890ABCDEFGHIJKLMNOPQRSTUVWXYZ-.$/+%&,() ".
Definition codabar_set : string := "0123456789-:.$/+".

(** The string holds no newline. *)
Definition no_newline (s : string) : bool :=
  all_chars (fun c => negb (Ascii.eqb c newline)) s.

(** The field data fragment. *)
Definition field_data (data : string) : string := "^FD" ++ data ++ "^FS".

(** No condition on the value. *)
Definition any_value (v : Z) : Prop := True.

(** The contract of a field under the reject policy, for a command seen
    as a function of that field (the parameters before it fixed, the ones
    after it omitted): whenever the command without the field returns
    having appended [reached] and the newline, a value within the bounds is
    appended after [reached], behind its comma when it has one and before
    the fragments [after], and a value outside the bounds raises the range
    error of the field with [reached] alone appended. *)
Definition range_checked
    (guard : Z -> Prop) (field : string) (min_value max_value : Z) (comma : bool)
    (after : list string) (command : option Z -> M unit) : Prop :=
  forall (zpl : stream) (reached : list string) (v : Z),
    command None zpl = Returned tt (zpl ++ reached ++ [nl])%list ->
    guard v ->
    (min_value <= v <= max_value ->
       command (Some v) zpl
       = Returned tt (zpl ++ reached ++ separator comma ++ [str_int v]
                      ++ after ++ [nl])%list)
    /\ (v < min_value \/ max_value < v ->
        command (Some v) zpl
        = Raised (range_error field min_value max_value) (zpl ++ reached)%list).

(** The contract of a field under the clamp policy. *)
Definition clamp_checked
    (min_value max_value : Z) (comma : bool) (command : option Z -> M unit) : Prop :=
  forall (zpl : stream) (reached : list string) (v : Z),
    command None zpl = Returned tt (zpl ++ reached ++ [nl])%list ->
    (v < min_value ->
       command (Some v) zpl
       = Returned tt (zpl ++ reached ++ separator comma ++ [str_int min_value; nl])%list)
    /\ (max_value < v ->
        command (Some v) zpl
        = Returned tt (zpl ++ reached ++ separator comma ++ [str_int max_value; nl])%list)
    /\ (min_value <= v <= max_value ->
        command (Some v) zpl
        = Returned tt (zpl ++ reached ++ separator comma ++ [str_int v; nl])%list).

(** The error of the decimal validator. *)
Definition decimal_error (field : string) (min_value max_value : Z) : exn :=
  ValueError (field ++ " must be between " ++ str_int min_value
              ++ " and " ++ str_int max_value ++ " by 0.1").

(** The contract of a decimal field. *)
Definition decimal_checked
    (field : string) (min_value max_value : Z) (after : list string)
    (command : option num -> M unit) : Prop :=
  forall (zpl : stream) (reached : list string) (v : num),
    command None zpl = Returned tt (zpl ++ reached ++ [nl])%list ->
    (num_in_range min_value max_value v = true ->
       command (Some v) zpl
       = Returned tt (zpl ++ reached ++ [","; str_round1 v] ++ after ++ [nl])%list)
    /\ (num_in_range min_value max_value v = false ->
        command (Some v) zpl
        = Raised (decimal_error field min_value max_value) (zpl ++ reached)%list).



(** The contract of the height of a bar code built on the common part,
    for a command seen as a function of its orientation and its height. *)
Definition height_checked (barcode : option pyval -> option Z -> M unit) : Prop :=
  forall orientation : pyval,
    range_checked any_value "height" 1 32000 true [] (barcode (Some orientation)).

(** ** The monad and the validators *)

Lemma bind_returned {A B} (m : M A) (k : A -> M B) zpl a zpl' :
  m zpl = Returned a zpl' -> bind m k zpl = k a zpl'.
Proof. intros H. unfold bind. now rewrite H. Qed.

Lemma bind_raised {A B} (m : M A) (k : A -> M B) zpl e zpl' :
  m zpl = Raised e zpl' -> bind m k zpl = Raised e zpl'.
Proof. intros H. unfold bind. now rewrite H. Qed.

Lemma append_run fragment zpl :
  append fragment zpl = Returned tt (zpl ++ [fragment])%list.
Proof. reflexivity. Qed.

Lemma _add_comma_run comma zpl :
  _add_comma comma zpl = Returned tt (zpl ++ separator comma)%list.
Proof. destruct comma; simpl; [reflexivity|]. unfold ret. now rewrite app_nil_r. Qed.

(** The decorator runs the body and then appends one newline fragment;
    nothing is appended when the body raises. *)
Lemma _newline_after_returned func zpl zpl' :
  func zpl = Returned tt zpl' ->
  _newline_after func zpl = Returned tt (zpl' ++ [nl])%list.
Proof. intros H. unfold _newline_after. now rewrite (bind_returned _ _ _ _ _ H). Qed.

Lemma _newline_after_raised func zpl e zpl' :
  func zpl = Raised e zpl' ->
  _newline_after func zpl = Raised e zpl'.
Proof. intros H. unfold _newline_after. now apply bind_raised. Qed.

(** Reject policy, value within the bounds. *)
Lemma in_range_accepted v field lo hi comma zpl :
  lo <= v <= hi ->
  _add_int_value_in_range v field lo hi comma false zpl
  = Returned tt (zpl ++ separator comma ++ [str_int v])%list.
Proof.
  intros [Hlo Hhi]. unfold _add_int_value_in_range.
  apply Z.leb_le in Hlo. apply Z.leb_le in Hhi. rewrite Hlo, Hhi. simpl.
  unfold bind at 1, ret at 1.
  rewrite (bind_returned _ _ _ _ _ (_add_comma_run comma zpl)).
  unfold _add_int. rewrite append_run. now rewrite <- app_assoc.
Qed.

(** Reject policy, value outside the bounds: nothing is appended. *)
Lemma out_of_range_rejected v field lo hi comma zpl :
  v < lo \/ hi < v ->
  _add_int_value_in_range v field lo hi comma false zpl
  = Raised (ValueError (field ++ " must be between " ++ str_int lo
                        ++ " and " ++ str_int hi ++ " (inclusive)")) zpl.
Proof.
  intros H. unfold _add_int_value_in_range.
  assert (E : (lo <=? v) && (v <=? hi) = false).
  { apply andb_false_iff. destruct H; [left; apply Z.leb_gt | right; apply Z.leb_gt]; lia. }
  rewrite E. reflexivity.
Qed.


Lemma clamped v field lo hi comma zpl :
  lo <= hi ->
  _add_int_value_in_range v field lo hi comma true zpl
  = Returned tt (zpl ++ separator comma ++ [str_int (clamp lo hi v)])%list.
Proof.
  intros H. unfold _add_int_value_in_range. simpl.
  unfold bind at 1, ret at 1.
  rewrite (bind_returned _ _ _ _ _ (_add_comma_run comma zpl)).
  unfold _add_int. rewrite append_run, <- app_assoc.
  replace (Z.max lo (Z.min hi v)) with (clamp lo hi v); [reflexivity|].
  unfold clamp. destruct (Z.ltb_spec v lo); [lia|]. destruct (Z.ltb_spec hi v); lia.
Qed.

Lemma value_in_list_accepted v field valid_values comma zpl :
  mem (str v) (map str valid_values) = true ->
  _add_value_in_list v field valid_values comma zpl
  = Returned tt (zpl ++ separator comma ++ [str v])%list.
Proof.
  intros H. unfold _add_value_in_list. rewrite H. simpl.
  rewrite (bind_returned _ _ _ _ _ (_add_comma_run comma zpl)).
  rewrite append_run. now rewrite <- app_assoc.
Qed.

Lemma value_in_list_rejected v field valid_values comma zpl :
  mem (str v) (map str valid_values) = false ->
  _add_value_in_list v field valid_values comma zpl
  = Raised (ValueError (field ++ " must be in " ++ str_list (map str valid_values))) zpl.
Proof. intros H. unfold _add_value_in_list. now rewrite H. Qed.

Lemma yes_no_accepted v field comma zpl :
  yes_no v ->
  _add_yes_no v field comma zpl = Returned tt (zpl ++ separator comma ++ [str v])%list.
Proof.
  intros H. apply value_in_list_accepted. destruct H as [-> | ->]; reflexivity.
Qed.

Lemma decimal_in_range_accepted v field lo hi comma zpl :
  num_in_range lo hi v = true ->
  _add_decimal_value_in_range v field lo hi comma zpl
  = Returned tt (zpl ++ separator comma ++ [str_round1 v])%list.
Proof.
  intros H. unfold _add_decimal_value_in_range. rewrite H. simpl.
  rewrite (bind_returned _ _ _ _ _ (_add_comma_run comma zpl)).
  rewrite append_run. now rewrite <- app_assoc.
Qed.

(** Runs the next call of a method body whose outcome a lemma gives. *)
Lemma decimal_out_of_range_rejected v field lo hi comma zpl :
  num_in_range lo hi v = false ->
  _add_decimal_value_in_range v field lo hi comma zpl
  = Raised (ValueError (field ++ " must be between " ++ str_int lo
                        ++ " and " ++ str_int hi ++ " by 0.1")) zpl.
Proof. intros H. unfold _add_decimal_value_in_range. now rewrite H. Qed.

Ltac step lemma :=
  erewrite bind_returned;
  [| apply lemma; first [eassumption | reflexivity | lia]].
Ltac opcode := erewrite bind_returned; [| apply append_run].
Ltac tidy := repeat rewrite <- app_assoc; simpl.

(** ** Sequential optional parameters *)

(** C1. For add_print_quantity on any stream: with quantity and
    replicates_of_serial supplied and pause_and_cut_count omitted, only
    '^PQ', the quantity and the newline are appended, whatever the later
    parameters are; with all five valid parameters supplied, all five are
    appended in declaration order, each but the first after a comma; with
    no quantity, only '^PQ' and the newline are appended. *)
Theorem add_print_quantity_halts_on_gap :
  forall (zpl : stream) (quantity pause_and_cut_count replicates_of_serial : Z)
         (override_pause cut_on_error : pyval)
         (later1 later2 : option Z) (later3 later4 : option pyval),
    1 <= quantity <= 99999999 ->
    0 <= pause_and_cut_count <= 99999999 ->
    0 <= replicates_of_serial <= 99999999 ->
    yes_no override_pause ->
    yes_no cut_on_error ->
    add_print_quantity (Some quantity) None (Some replicates_of_serial) later3 later4 zpl
    = Returned tt (zpl ++ ["^PQ"; str_int quantity; nl])%list
    /\ add_print_quantity (Some quantity) (Some pause_and_cut_count)
         (Some replicates_of_serial) (Some override_pause) (Some cut_on_error) zpl
       = Returned tt (zpl ++ ["^PQ"; str_int quantity;
                              ","; str_int pause_and_cut_count;
                              ","; str_int replicates_of_serial;
                              ","; str override_pause;
                              ","; str cut_on_error; nl])%list
    /\ add_print_quantity None later1 later2 later3 later4 zpl
       = Returned tt (zpl ++ ["^PQ"; nl])%list.
Proof.
  intros zpl q p r o c l1 l2 l3 l4 Hq Hp Hr Ho Hc.
  repeat split; unfold add_print_quantity.
  - erewrite _newline_after_returned.
    2:{ opcode. step in_range_accepted. reflexivity. }
    now tidy.
  - erewrite _newline_after_returned.
    2:{ opcode. do 3 step in_range_accepted. step yes_no_accepted.
        now apply yes_no_accepted. }
    now tidy.
  - erewrite _newline_after_returned.
    2:{ opcode. reflexivity. }
    now tidy.
Qed.

Lemma add_print_quantity_halts_on_gap_witness :
  add_print_quantity (Some 5) None (Some 3) None None __init__
  = Returned tt (__init__ ++ ["^PQ"; "5"; nl])%list
  /\ add_print_quantity (Some 5) (Some 0) (Some 3) (Some (VStr "Y")) (Some (VStr "N")) __init__
     = Returned tt (__init__ ++ ["^PQ"; "5"; ","; "0"; ","; "3"; ","; "Y"; ","; "N"; nl])%list
  /\ add_print_quantity None None None None None __init__
     = Returned tt (__init__ ++ ["^PQ"; nl])%list.
Proof.
  apply (add_print_quantity_halts_on_gap __init__ 5 0 3 (VStr "Y") (VStr "N")
           None None None None).
  - lia.
  - lia.
  - lia.
  - left; reflexivity.
  - right; reflexivity.
Defined.

(** ** Numeric fields *)

(** The range validator on its own, for a field with inclusive bounds
    [min, max]: under the clamp policy the value appended is min for an
    input below min, max for an input above max and the input itself when
    it is within the bounds; under the reject policy an input outside the
    bounds raises a ValueError whose message names the field and both
    bounds and leaves the stream as it was, and the bounds themselves are
    accepted and appended. *)
Lemma int_value_in_range_contract :
  forall (zpl : stream) (field : string) (min_value max_value : Z) (comma : bool)
         (below within above : Z),
    min_value <= max_value ->
    below < min_value ->
    min_value <= within <= max_value ->
    max_value < above ->
    (_add_int_value_in_range below field min_value max_value comma true zpl
     = Returned tt (zpl ++ separator comma ++ [str_int min_value])%list
     /\ _add_int_value_in_range above field min_value max_value comma true zpl
        = Returned tt (zpl ++ separator comma ++ [str_int max_value])%list
     /\ _add_int_value_in_range within field min_value max_value comma true zpl
        = Returned tt (zpl ++ separator comma ++ [str_int within])%list)
    /\ (forall diameter border : Z,
          add_graphic_circle (Some diameter) None None zpl
          = Returned tt (zpl ++ ["^GC"; str_int (clamp 3 4095 diameter); nl])%list
          /\ add_graphic_circle (Some diameter) (Some border) None zpl
             = Returned tt (zpl ++ ["^GC"; str_int (clamp 3 4095 diameter);
                                    ","; str_int (clamp 1 4095 border); nl])%list)
    /\ (_add_int_value_in_range below field min_value max_value comma false zpl
        = Raised (ValueError (field ++ " must be between " ++ str_int min_value
                              ++ " and " ++ str_int max_value ++ " (inclusive)")) zpl
        /\ _add_int_value_in_range above field min_value max_value comma false zpl
           = Raised (ValueError (field ++ " must be between " ++ str_int min_value
                                 ++ " and " ++ str_int max_value ++ " (inclusive)")) zpl)
    /\ (_add_int_value_in_range min_value field min_value max_value comma false zpl
        = Returned tt (zpl ++ separator comma ++ [str_int min_value])%list
        /\ _add_int_value_in_range max_value field min_value max_value comma false zpl
           = Returned tt (zpl ++ separator comma ++ [str_int max_value])%list).
Proof.
  intros zpl field lo hi comma below within above Hle Hb Hw Ha.
  assert (C : forall x, _add_int_value_in_range x field lo hi comma true zpl
              = Returned tt (zpl ++ separator comma ++ [str_int (clamp lo hi x)])%list)
    by (intros x; now apply clamped).
  repeat split.
  - rewrite C. unfold clamp.
    destruct (Z.ltb_spec below lo); [reflexivity | lia].
  - rewrite C. unfold clamp.
    destruct (Z.ltb_spec above lo); [lia|].
    destruct (Z.ltb_spec hi above); [reflexivity | lia].
  - rewrite C. unfold clamp.
    destruct (Z.ltb_spec within lo); [lia|].
    destruct (Z.ltb_spec hi within); [lia | reflexivity].
  - unfold add_graphic_circle. erewrite _newline_after_returned.
    2:{ opcode. step clamped. reflexivity. }
    now tidy.
  - unfold add_graphic_circle. erewrite _newline_after_returned.
    2:{ opcode. do 2 step clamped. reflexivity. }
    now tidy.
  - apply out_of_range_rejected. now left.
  - apply out_of_range_rejected. now right.
  - apply in_range_accepted; lia.
  - apply in_range_accepted; lia.
Qed.

(** The innermost step that a run of the command is waiting for. *)
Ltac scrutinee t :=
  lazymatch t with
  | match ?x with Returned _ _ => _ | Raised _ _ => _ end => scrutinee x
  | _ => t
  end.

(** Runs the command without the field up to the point where it stops:
    each step before it returned, or the command would have raised. *)
Ltac reach H :=
  repeat (
    let T := type of H in
    lazymatch T with
    | ?l = _ =>
      let x := scrutinee l in
      lazymatch x with
      | Returned _ _ => fail
      | Raised _ _ => fail
      | (if ?c then _ else _) _ => destruct c
      | _ => destruct x as [[] ?|? ?] eqn:?
      end
    end;
    cbv beta iota in H |- *;
    try discriminate H).

(** The stream at which the command without the field stopped. *)
Ltac arrive H :=
  injection H as H; rewrite app_assoc in H; apply app_inj_tail in H;
  destruct H as [-> _].

(** Unfolds the command down to its validators. *)
Ltac run_command :=
  cbv beta iota zeta delta
    [add_graphic_circle add_label_home add_field_origin add_font add_field_block
     add_print_quantity add_graphic_box add_barcode_default
     add_barcode_code_11 add_barcode_interleaved_2_of_5 add_barcode_code_39
     add_barcode_planet_code add_barcode_ean_8 add_barcode_upc_e add_barcode_code_93
     add_barcode_code_128 add_barcode_ean_13 add_barcode_standard_2_of_5
     add_barcode_ansi_codabar add_barcode_logmars add_barcode_plessey
     add_barcode_upc_ean_extensions add_barcode_upc_a add_barcode_postal
     add_barcode_aztec add_barcode_pdf417 add_barcode_codablock
     add_barcode_ups_maxicode add_barcode_micropdf_417 add_barcode_msi
     add_barcode_qr add_barcode_gs1_batabar add_barcode_tlc39 add_barcode_data_matrix
     _newline_after bind append _newline ret raise truthy_int] in *.


(** Brings the goal to the check of the field itself. *)
Ltac start :=
  intros;
  let H := fresh "H" in
  let G := fresh "G" in
  lazymatch goal with
  | |- height_checked _ =>
      intros ? ? ? ? H G; run_command;
      cbv beta iota delta [_add_standard_1d_barcode bind append ret] in *
  | |- range_checked _ _ _ _ _ _ _ => intros ? ? ? H G; run_command
  | |- clamp_checked _ _ _ _ => intros ? ? ? H; run_command
  | |- decimal_checked _ _ _ _ _ => intros ? ? ? H; run_command
  end;
  reach H; arrive H.







(** ** Bar code defaults *)

(** C10. With a valid module_width, wide_narrow_ratio and height all
    supplied, add_barcode_default appends '^BY', the module_width, a comma,
    the ratio rounded to one decimal, a comma, the module_width a second
    time, a comma, the height, and the newline. *)
Theorem add_barcode_default_repeats_module_width :
  forall (zpl : stream) (module_width : Z) (wide_narrow_ratio : num) (height : Z),
    1 <= module_width <= 10 ->
    num_in_range 2 3 wide_narrow_ratio = true ->
    1 <= height <= 200 ->
    add_barcode_default (Some module_width) (Some wide_narrow_ratio) (Some height) zpl
    = Returned tt (zpl ++ ["^BY"; str_int module_width;
                           ","; str_round1 wide_narrow_ratio;
                           ","; str_int module_width;
                           ","; str_int height; nl])%list.
Proof.
  intros zpl w r h Hw Hr Hh. unfold add_barcode_default.
  erewrite _newline_after_returned.
  2:{ opcode. step in_range_accepted. step decimal_in_range_accepted.
      step in_range_accepted. now apply in_range_accepted. }
  now tidy.
Qed.

Lemma add_barcode_default_repeats_module_width_witness :
  add_barcode_default (Some 2) (Some (NFloat (5 # 2))) (Some 10) __init__
  = Returned tt (__init__ ++ ["^BY"; "2"; ","; "2.5"; ","; "2"; ","; "10"; nl])%list.
Proof.
  apply (add_barcode_default_repeats_module_width __init__ 2 (NFloat (5 # 2)) 10).
  - lia.
  - reflexivity.
  - lia.
Defined.

(** ** MSI check digit values *)

(** C8. The values add_barcode_msi allows for check_digit are 'A', 'B',
    'C,' and 'D': with an orientation supplied, check_digit 'C,' is
    accepted and appended, and check_digit 'C' raises a ValueError whose
    message lists the allowed values. *)
Theorem add_barcode_msi_check_digit_values :
  forall (zpl : stream) (orientation : pyval),
    is_orientation orientation ->
    add_barcode_msi (Some orientation) (Some (VStr "C,")) None None None None zpl
    = Returned tt (zpl ++ ["^BM"; str orientation; ","; "C,"; nl])%list
    /\ add_barcode_msi (Some orientation) (Some (VStr "C")) None None None None zpl
       = Raised (ValueError "check_digit must be in ['A', 'B', 'C,', 'D']")
                (zpl ++ ["^BM"; str orientation])%list.
Proof.
  intros zpl o Ho. unfold add_barcode_msi. split.
  - erewrite _newline_after_returned.
    2:{ opcode. step value_in_list_accepted.
        erewrite bind_returned; [reflexivity|].
        now apply value_in_list_accepted. }
    now tidy.
  - erewrite _newline_after_raised; [reflexivity|].
    opcode. step value_in_list_accepted.
    erewrite bind_raised; [reflexivity|].
    rewrite value_in_list_rejected by reflexivity.
    now tidy.
Qed.

Lemma add_barcode_msi_check_digit_values_witness :
  add_barcode_msi (Some (VStr "N")) (Some (VStr "C,")) None None None None __init__
  = Returned tt (__init__ ++ ["^BM"; "N"; ","; "C,"; nl])%list
  /\ add_barcode_msi (Some (VStr "N")) (Some (VStr "C")) None None None None __init__
     = Raised (ValueError "check_digit must be in ['A', 'B', 'C,', 'D']")
              (__init__ ++ ["^BM"; "N"])%list.
Proof.
  apply (add_barcode_msi_check_digit_values __init__ (VStr "N")).
  reflexivity.
Defined.

(** ** Rendering *)

(** C9. A formatter on which no method was called renders as '^XA', one
    newline and '^XZ'; on every stream, zpl_bytes returns the UTF-8
    encoding of what zpl_text returns; and both leave the stream as it
    was, so that rendering again gives the same value. *)
Theorem rendering_round_trip :
  zpl_text __init__ = Returned ("^XA" ++ nl ++ "^XZ") __init__
  /\ forall zpl : stream,
       let text := join "" (zpl ++ ["^XZ"])%list in
       zpl_text zpl = Returned text zpl
       /\ zpl_bytes zpl = Returned (utf8 text) zpl
       /\ (zpl_text ;; zpl_text) zpl = Returned text zpl
       /\ (zpl_bytes ;; zpl_bytes) zpl = Returned (utf8 text) zpl
       /\ (zpl_bytes ;; zpl_text) zpl = Returned text zpl.
Proof.
  split; [reflexivity|].
  intros zpl text. repeat split.
Qed.

(** ** Field data *)

Lemma length_append (s t : string) :
  String.length (s ++ t) = (String.length s + String.length t)%nat.
Proof. induction s as [|c s IH]; simpl; [reflexivity | now rewrite IH]. Qed.

Lemma append_empty (s : string) : s ++ "" = s.
Proof. induction s as [|c s IH]; simpl; [reflexivity | now rewrite IH]. Qed.

Lemma length_zeros (n : nat) : String.length (zeros n) = n.
Proof. induction n as [|n IH]; simpl; [reflexivity | now rewrite IH]. Qed.

(** [(kept + rest)[:n]] is [kept] when [kept] has [n] characters. *)
Lemma slice_to_append (n : nat) (kept rest : string) :
  String.length kept = n -> slice_to n (kept ++ rest) = kept.
Proof.
  intros <-. unfold slice_to. induction kept as [|c kept IH]; simpl.
  - now destruct rest.
  - now rewrite IH.
Qed.

Lemma slice_to_all (n : nat) (s : string) :
  String.length s = n -> slice_to n s = s.
Proof. intros H. rewrite <- (append_empty s) at 1. now apply slice_to_append. Qed.

(** A string of digits starts with no sign, so [zfill] pads on the
    left. *)
Lemma zfill_digits (width : nat) (s : string) :
  isdigit s = true ->
  zfill width s = zeros (width - String.length s) ++ s.
Proof.
  intros H. unfold zfill.
  destruct (width - String.length s)%nat as [|pad]; [reflexivity|].
  destruct s as [|c s]; [discriminate H|].
  destruct c as [[] [] [] [] [] [] [] []];
    first [discriminate H | reflexivity].
Qed.

Lemma gtb_over (n k : Z) : k < n -> (n >? k) = true.
Proof. intros H. rewrite Z.gtb_ltb. now apply Z.ltb_lt. Qed.

Lemma gtb_within (n k : Z) : n <= k -> (n >? k) = false.
Proof. intros H. rewrite Z.gtb_ltb. now apply Z.ltb_ge. Qed.

Lemma verified_numeric data zpl :
  isdigit data = true -> _verify_data_numeric data zpl = Returned tt zpl.
Proof. intros H. unfold _verify_data_numeric. now rewrite H. Qed.

Lemma rejected_numeric data zpl :
  isdigit data = false ->
  _verify_data_numeric data zpl = Raised (ValueError "Data must contain only digits.") zpl.
Proof. intros H. unfold _verify_data_numeric. now rewrite H. Qed.

(** One string as field data: one fragment and the newline. *)
Lemma add_field_data_text (s : string) (zpl : stream) :
  add_field_data (Text s) false zpl
  = Returned tt (zpl ++ [("^FD" ++ s ++ "^FS")%string; nl])%list.
Proof.
  unfold add_field_data. erewrite _newline_after_returned.
  2:{ erewrite bind_returned; [|reflexivity]. apply append_run. }
  now tidy.
Qed.

(** C5. add_field_data_ean_13 pads a payload of digits with zeros on the
    left to 12 digits and keeps the first 12 digits of a longer one;
    add_field_data_upc_a does the same with 11 digits; neither raises on a
    payload of digits of any length. *)
Theorem fixed_length_pads_and_truncates :
  forall (zpl : stream) (short kept12 rest12 kept11 rest11 : string),
    isdigit short = true ->
    (String.length short <= 11)%nat ->
    isdigit (kept12 ++ rest12) = true ->
    String.length kept12 = 12%nat ->
    isdigit (kept11 ++ rest11) = true ->
    String.length kept11 = 11%nat ->
    add_field_data_ean_13 (VStr short) zpl
    = Returned tt
        (zpl ++ [("^FD" ++ (zeros (12 - String.length short) ++ short) ++ "^FS")%string; nl])%list
    /\ add_field_data_ean_13 (VStr (kept12 ++ rest12)) zpl
       = Returned tt (zpl ++ [("^FD" ++ kept12 ++ "^FS")%string; nl])%list
    /\ add_field_data_upc_a short zpl
       = Returned tt
           (zpl ++ [("^FD" ++ (zeros (11 - String.length short) ++ short) ++ "^FS")%string; nl])%list
    /\ add_field_data_upc_a (kept11 ++ rest11) zpl
       = Returned tt (zpl ++ [("^FD" ++ kept11 ++ "^FS")%string; nl])%list
    /\ add_field_data_ean_13 (VInt 123) zpl
       = Returned tt (zpl ++ ["^FD000000000123^FS"; nl])%list.
Proof.
  intros zpl short kept12 rest12 kept11 rest11 Hs Hlen H12 L12 H11 L11.
  repeat split.
  - unfold add_field_data_ean_13. simpl str. step verified_numeric.
    rewrite gtb_within by (unfold len; lia).
    rewrite zfill_digits by assumption. apply add_field_data_text.
  - unfold add_field_data_ean_13. simpl str. step verified_numeric.
    destruct (len (kept12 ++ rest12) >? 12) eqn:E.
    + rewrite slice_to_append by assumption.
      unfold zfill. rewrite L12. apply add_field_data_text.
    + rewrite Z.gtb_ltb in E. apply Z.ltb_ge in E.
      unfold len in E. rewrite length_append in E.
      assert (R : rest12 = "") by (destruct rest12; [reflexivity | simpl in E; lia]).
      subst rest12. rewrite append_empty.
      unfold zfill. rewrite L12. apply add_field_data_text.
  - unfold add_field_data_upc_a. step verified_numeric.
    destruct (len short <? 11) eqn:E.
    + rewrite zfill_digits by assumption.
      assert (L : String.length (zeros (11 - String.length short) ++ short) = 11%nat)
        by (rewrite length_append, length_zeros; lia).
      rewrite slice_to_all by assumption. apply add_field_data_text.
    + apply Z.ltb_ge in E. unfold len in E.
      assert (L : String.length short = 11%nat) by lia.
      rewrite slice_to_all by assumption. rewrite L. apply add_field_data_text.
  - unfold add_field_data_upc_a. step verified_numeric.
    replace (len (kept11 ++ rest11) <? 11) with false
      by (symmetry; apply Z.ltb_ge; unfold len; rewrite length_append; lia).
    rewrite slice_to_append by assumption. apply add_field_data_text.
  - unfold add_field_data_ean_13. step verified_numeric.
    simpl. now rewrite add_field_data_text.
Qed.

Lemma fixed_length_pads_and_truncates_witness :
  add_field_data_ean_13 (VStr "123") __init__
  = Returned tt (__init__ ++ [("^FD" ++ "000000000123" ++ "^FS")%string; nl])%list
  /\ add_field_data_ean_13 (VStr ("123456789012" ++ "3")) __init__
     = Returned tt (__init__ ++ [("^FD" ++ "123456789012" ++ "^FS")%string; nl])%list
  /\ add_field_data_upc_a "123" __init__
     = Returned tt (__init__ ++ [("^FD" ++ "00000000123" ++ "^FS")%string; nl])%list
  /\ add_field_data_upc_a ("12345678901" ++ "23") __init__
     = Returned tt (__init__ ++ [("^FD" ++ "12345678901" ++ "^FS")%string; nl])%list
  /\ add_field_data_ean_13 (VInt 123) __init__
     = Returned tt (__init__ ++ ["^FD000000000123^FS"; nl])%list.
Proof.
  apply (fixed_length_pads_and_truncates __init__ "123" "123456789012" "3" "12345678901" "23").
  - reflexivity.
  - simpl; lia.
  - reflexivity.
  - reflexivity.
  - reflexivity.
  - reflexivity.
Defined.

(** C7. add_field_data_msi raises a ValueError, appending nothing, on a
    payload longer than 13 characters when check_digit is 'B', 'C' or 'D',
    and on a payload longer than 14 characters when check_digit is 'A' or
    is not supplied; a payload of digits within the limit is appended as
    field data. *)
Theorem msi_maximum_length :
  forall (zpl : stream) (mode : pyval) (over13 over14 upto13 upto14 : string),
    mode = VStr "B" \/ mode = VStr "C" \/ mode = VStr "D" ->
    13 < len over13 ->
    14 < len over14 ->
    isdigit upto13 = true -> len upto13 <= 13 ->
    isdigit upto14 = true -> len upto14 <= 14 ->
    add_field_data_msi over13 (Some mode) zpl = Raised msi_too_long zpl
    /\ add_field_data_msi over14 (Some (VStr "A")) zpl = Raised msi_too_long zpl
    /\ add_field_data_msi over14 None zpl = Raised msi_too_long zpl
    /\ add_field_data_msi upto13 (Some mode) zpl
       = Returned tt (zpl ++ [("^FD" ++ upto13 ++ "^FS")%string; nl])%list
    /\ add_field_data_msi upto14 (Some (VStr "A")) zpl
       = Returned tt (zpl ++ [("^FD" ++ upto14 ++ "^FS")%string; nl])%list
    /\ add_field_data_msi upto14 None zpl
       = Returned tt (zpl ++ [("^FD" ++ upto14 ++ "^FS")%string; nl])%list.
Proof.
  intros zpl mode over13 over14 upto13 upto14 Hm H13 H14 D13 L13 D14 L14.
  assert (B : value_in (Some mode) [VStr "B"; VStr "C"; VStr "D"] = true)
    by (destruct Hm as [-> | [-> | ->]]; reflexivity).
  assert (A : value_in (Some (VStr "A")) [VStr "B"; VStr "C"; VStr "D"] = false)
    by reflexivity.
  assert (U : value_in None [VStr "B"; VStr "C"; VStr "D"] = false)
    by reflexivity.
  unfold add_field_data_msi. rewrite A, B, U.
  rewrite (gtb_over _ _ H13), (gtb_over _ _ H14),
    (gtb_within _ _ L13), (gtb_within _ _ L14).
  repeat split;
    (step verified_numeric; apply add_field_data_text).
Qed.

Lemma msi_maximum_length_witness :
  add_field_data_msi "12345678901234" (Some (VStr "C")) __init__
  = Raised msi_too_long __init__
  /\ add_field_data_msi "123456789012345" (Some (VStr "A")) __init__
     = Raised msi_too_long __init__
  /\ add_field_data_msi "123456789012345" None __init__
     = Raised msi_too_long __init__
  /\ add_field_data_msi "1234567890123" (Some (VStr "C")) __init__
     = Returned tt (__init__ ++ [("^FD" ++ "1234567890123" ++ "^FS")%string; nl])%list
  /\ add_field_data_msi "12345678901234" (Some (VStr "A")) __init__
     = Returned tt (__init__ ++ [("^FD" ++ "12345678901234" ++ "^FS")%string; nl])%list
  /\ add_field_data_msi "12345678901234" None __init__
     = Returned tt (__init__ ++ [("^FD" ++ "12345678901234" ++ "^FS")%string; nl])%list.
Proof.
  apply (msi_maximum_length __init__ (VStr "C")
           "12345678901234" "123456789012345" "1234567890123" "12345678901234").
  - right; left; reflexivity.
  - reflexivity.
  - reflexivity.
  - reflexivity.
  - vm_compute; discriminate.
  - reflexivity.
  - vm_compute; discriminate.
Defined.

(** C6. For a list or tuple of segments, add_field_data appends one
    fragment made of '^FD', the segments joined by '^FS' and a closing
    '^FS', then the newline; with replace_newlines set, the newlines of a
    single string are replaced by the escape sequence, whereas a list or
    tuple makes the call raise AttributeError with nothing appended. *)
Theorem add_field_data_segments :
  forall (zpl : stream) (segments : list string) (text : string),
    add_field_data (Segments segments) false zpl
    = Returned tt (zpl ++ [("^FD" ++ join "^FS" segments ++ "^FS")%string; nl])%list
    /\ add_field_data (Text text) true zpl
       = Returned tt (zpl ++ [("^FD" ++ replace_newline "\&" text ++ "^FS")%string; nl])%list
    /\ add_field_data (Segments segments) true zpl = Raised AttributeError zpl
    /\ add_field_data (Segments [("a" ++ nl ++ "b")%string; "c"]) true zpl
       = Raised AttributeError zpl.
Proof.
  intros zpl segments text. unfold add_field_data. repeat split.
  - erewrite _newline_after_returned.
    2:{ erewrite bind_returned; [|reflexivity]. apply append_run. }
    now tidy.
  - erewrite _newline_after_returned.
    2:{ erewrite bind_returned; [|reflexivity]. apply append_run. }
    now tidy.
Qed.

(** ** TLC39 field data *)

Lemma check_blocks_pass (blocks : list string) (zpl : stream) :
  blocks_under_25 blocks = true ->
  check_blocks blocks zpl = Returned tt zpl.
Proof.
  unfold blocks_under_25.
  induction blocks as [|block blocks IH]; simpl; [reflexivity|].
  intros H. apply andb_true_iff in H. destruct H as [Hb Hrest].
  apply Z.ltb_lt in Hb.
  replace (len block >=? 25) with false
    by (symmetry; rewrite Z.geb_leb; now apply Z.leb_gt).
  now apply IH.
Qed.

(** C2. add_field_data_tlc39 with a valid eci_number alone returns, and
    the fragments it appends are the field data followed by two newline
    fragments: the one of add_field_data, which it calls, and the one of
    its own decorator. *)
Theorem add_field_data_tlc39_two_newlines :
  forall (zpl : stream) (eci_number : string),
    len eci_number = 6 ->
    isdigit eci_number = true ->
    add_field_data_tlc39 eci_number None None zpl
    = Returned tt (zpl ++ [("^FD" ++ eci_number ++ "^FS")%string; nl; nl])%list
    /\ add_field_data_upc_a "12345678901" zpl
       = Returned tt (zpl ++ ["^FD12345678901^FS"; nl])%list.
Proof.
  intros zpl eci Hlen Hdigit. split.
  - unfold add_field_data_tlc39. rewrite Hlen, Hdigit. simpl.
    erewrite _newline_after_returned by apply add_field_data_text.
    now tidy.
  - unfold add_field_data_upc_a. step verified_numeric.
    simpl. rewrite add_field_data_text. reflexivity.
Qed.

Lemma add_field_data_tlc39_two_newlines_witness :
  add_field_data_tlc39 "123456" None None __init__
  = Returned tt (__init__ ++ [("^FD" ++ "123456" ++ "^FS")%string; nl; nl])%list
  /\ add_field_data_upc_a "12345678901" __init__
     = Returned tt (__init__ ++ ["^FD12345678901^FS"; nl])%list.
Proof.
  apply (add_field_data_tlc39_two_newlines __init__ "123456").
  - reflexivity.
  - reflexivity.
Defined.

(** C4. add_field_data_tlc39 raises a ValueError and appends nothing when
    the eci_number is not 6 digits, and when the blocks of additional
    data, each shorter than 25 characters, join into more than 139
    characters; a block of exactly 25 alphanumeric characters is appended
    when given as a string, and raises the ValueError of the block limit
    when given as the only element of a list. *)
Theorem add_field_data_tlc39_bounds :
  forall (zpl : stream) (eci_number serial_number bad_eci block : string)
         (blocks : list string) (serial : option string) (additional : option payload),
    len eci_number = 6 -> isdigit eci_number = true ->
    1 <= len serial_number <= 26 -> isalnum serial_number = true ->
    len bad_eci <> 6 \/ isdigit bad_eci = false ->
    len block = 25 -> isalnum block = true ->
    blocks_under_25 blocks = true ->
    139 < len (join "," blocks) ->
    add_field_data_tlc39 bad_eci serial additional zpl
    = Raised (ValueError "eci_number must be exactly 6 digital") zpl
    /\ add_field_data_tlc39 eci_number (Some serial_number) (Some (Segments blocks)) zpl
       = Raised (ValueError
                   ("additional_data is limited to 139 characters after joining with commas."
                    ++ "Data sent length is " ++ str_int (len (join "," blocks)))) zpl
    /\ add_field_data_tlc39 eci_number (Some serial_number) (Some (Text block)) zpl
       = Returned tt
           (zpl ++ [("^FD" ++ (eci_number ++ "," ++ serial_number ++ "," ++ block) ++ "^FS")%string;
                    nl; nl])%list
    /\ add_field_data_tlc39 eci_number (Some serial_number) (Some (Segments [block])) zpl
       = Raised (ValueError "additional_data blocks are limited to 25 characters.") zpl.
Proof.
  intros zpl eci sn bad block blocks serial additional
         Heci Deci [Hsn1 Hsn2] Asn Hbad Hblock Ablock Hblocks Hjoined.
  assert (S1 : (1 <=? len sn) = true) by now apply Z.leb_le.
  assert (S2 : (len sn <=? 26) = true) by now apply Z.leb_le.
  repeat split; unfold add_field_data_tlc39.
  - replace ((len bad =? 6) && isdigit bad) with false.
    + reflexivity.
    + symmetry. apply andb_false_iff.
      destruct Hbad as [H | H]; [left; now apply Z.eqb_neq | now right].
  - rewrite Heci, Deci, S1, S2, Asn. simpl negb. cbv iota.
    apply _newline_after_raised.
    erewrite bind_returned.
    2:{ erewrite bind_returned; [|now apply check_blocks_pass]. reflexivity. }
    now rewrite gtb_over.
  - rewrite Heci, Deci, S1, S2, Asn. simpl negb. cbv iota.
    erewrite _newline_after_returned.
    2:{ rewrite gtb_within by lia.
        erewrite bind_returned; [|reflexivity].
        rewrite gtb_within by lia. rewrite Ablock. simpl negb. cbv iota.
        apply add_field_data_text. }
    now tidy.
  - rewrite Heci, Deci, S1, S2, Asn. simpl negb. cbv iota.
    apply _newline_after_raised.
    apply bind_raised. apply bind_raised. simpl.
    now replace (len block >=? 25) with true
      by (symmetry; rewrite Z.geb_leb; apply Z.leb_le; lia).
Qed.

Lemma add_field_data_tlc39_bounds_witness :
  add_field_data_tlc39 "12345" None None __init__
  = Raised (ValueError "eci_number must be exactly 6 digital") __init__
  /\ add_field_data_tlc39 "123456" (Some "SN1") (Some (Segments six_blocks_of_24)) __init__
     = Raised (ValueError
                 ("additional_data is limited to 139 characters after joining with commas."
                  ++ "Data sent length is " ++ str_int (len (join "," six_blocks_of_24))))
              __init__
  /\ add_field_data_tlc39 "123456" (Some "SN1") (Some (Text block_of_25)) __init__
     = Returned tt
         (__init__
          ++ [("^FD" ++ ("123456" ++ "," ++ "SN1" ++ "," ++ block_of_25) ++ "^FS")%string;
              nl; nl])%list
  /\ add_field_data_tlc39 "123456" (Some "SN1") (Some (Segments [block_of_25])) __init__
     = Raised (ValueError "additional_data blocks are limited to 25 characters.") __init__.
Proof.
  apply (add_field_data_tlc39_bounds __init__ "123456" "SN1" "12345"
           block_of_25 six_blocks_of_24 None None).
  - reflexivity.
  - reflexivity.
  - vm_compute; split; discriminate.
  - reflexivity.
  - left; vm_compute; discriminate.
  - reflexivity.
  - reflexivity.
  - reflexivity.
  - reflexivity.
Defined.

(** * Further properties of the formatter *)

(** ** The stream only grows *)

Lemma extends_refl (zpl : stream) : extends zpl zpl.
Proof. exists []. now rewrite app_nil_r. Qed.

Lemma extends_trans (a b c : stream) : extends a b -> extends b c -> extends a c.
Proof. intros [x ->] [y ->]. exists (x ++ y)%list. now rewrite app_assoc. Qed.

Lemma append_only_ret {A} (a : A) : append_only (ret a).
Proof. intros zpl. apply extends_refl. Qed.

Lemma append_only_raise {A} (e : exn) : append_only (@raise A e).
Proof. intros zpl. apply extends_refl. Qed.

Lemma append_only_append (fragment : string) : append_only (append fragment).
Proof. intros zpl. now exists [fragment]. Qed.

Lemma append_only_bind {A B} (m : M A) (k : A -> M B) :
  append_only m -> (forall a, append_only (k a)) -> append_only (bind m k).
Proof.
  intros Hm Hk zpl. unfold bind. specialize (Hm zpl).
  destruct (m zpl) as [a z|e z]; simpl in Hm; [|exact Hm].
  eapply extends_trans; [exact Hm | apply Hk].
Qed.

(** Takes a method body apart down to its appends. *)
Ltac grows :=
  repeat first
    [ apply append_only_ret
    | apply append_only_raise
    | apply append_only_append
    | apply append_only_bind; [| intros ?]
    | progress cbv zeta
    | match goal with
      | |- append_only (if ?b then _ else _) => destruct b
      | |- append_only (match ?x with _ => _ end) => destruct x
      end
    | solve [auto with grow] ].

Create HintDb grow.

Lemma append_only__add_comma comma : append_only (_add_comma comma).
Proof. unfold _add_comma. grows. Qed.

Lemma append_only__newline : append_only _newline.
Proof. unfold _newline. grows. Qed.

Lemma append_only__newline_after func :
  append_only func -> append_only (_newline_after func).
Proof.
  intros H. unfold _newline_after. apply append_only_bind; [exact H|].
  intros _. apply append_only__newline.
Qed.

Lemma append_only__add_int value : append_only (_add_int value).
Proof. unfold _add_int. grows. Qed.

#[local] Hint Resolve append_only__add_comma append_only__newline
  append_only__newline_after append_only__add_int : grow.

Lemma append_only__add_int_value_in_range value field lo hi comma reset_back :
  append_only (_add_int_value_in_range value field lo hi comma reset_back).
Proof. unfold _add_int_value_in_range. grows. Qed.

Lemma append_only__add_value_in_list value field valid_values comma :
  append_only (_add_value_in_list value field valid_values comma).
Proof. unfold _add_value_in_list. grows. Qed.

Lemma append_only__add_decimal_value_in_range value field lo hi comma :
  append_only (_add_decimal_value_in_range value field lo hi comma).
Proof. unfold _add_decimal_value_in_range. grows. Qed.

#[local] Hint Resolve append_only__add_int_value_in_range
  append_only__add_value_in_list append_only__add_decimal_value_in_range : grow.

Lemma append_only__add_orientation orientation comma :
  append_only (_add_orientation orientation comma).
Proof. unfold _add_orientation. grows. Qed.

Lemma append_only__add_yes_no value field comma :
  append_only (_add_yes_no value field comma).
Proof. unfold _add_yes_no. grows. Qed.

Lemma append_only__add_line_color color comma :
  append_only (_add_line_color color comma).
Proof. unfold _add_line_color. grows. Qed.

Lemma append_only__verify_data_numeric data :
  append_only (_verify_data_numeric data).
Proof. unfold _verify_data_numeric. grows. Qed.

Lemma append_only__verify_legal_characters data characters :
  append_only (_verify_legal_characters data characters).
Proof. unfold _verify_legal_characters. grows. Qed.

Lemma append_only__format_field_data data replace_newlines :
  append_only (_format_field_data data replace_newlines).
Proof. unfold _format_field_data. grows. Qed.

#[local] Hint Resolve append_only__add_orientation append_only__add_yes_no
  append_only__add_line_color append_only__verify_data_numeric
  append_only__verify_legal_characters append_only__format_field_data : grow.

Lemma append_only_add_field_data data_list replace_newlines :
  append_only (add_field_data data_list replace_newlines).
Proof. unfold add_field_data. grows. Qed.

Lemma append_only_check_blocks blocks : append_only (check_blocks blocks).
Proof. induction blocks as [|block blocks IH]; simpl; grows. Qed.

Lemma append_only__add_standard_1d_barcode
    zpl_code orientation check_digit_one height print_text text_above check_digit_two :
  append_only (_add_standard_1d_barcode zpl_code orientation check_digit_one height
                 print_text text_above check_digit_two).
Proof. unfold _add_standard_1d_barcode. grows. Qed.

#[local] Hint Resolve append_only_add_field_data append_only_check_blocks
  append_only__add_standard_1d_barcode : grow.

Lemma append_only__add_int_value_in_range_any value field lo hi comma :
  append_only (_add_int_value_in_range_any value field lo hi comma).
Proof. unfold _add_int_value_in_range_any. grows. Qed.

#[local] Hint Resolve append_only__add_int_value_in_range_any : grow.

Lemma append_only__add_standard_1d_barcode_any
    zpl_code orientation check_digit_one height print_text text_above check_digit_two :
  append_only (_add_standard_1d_barcode_any zpl_code orientation check_digit_one height
                 print_text text_above check_digit_two).
Proof. unfold _add_standard_1d_barcode_any. grows. Qed.

#[local] Hint Resolve append_only__add_standard_1d_barcode_any : grow.

(** With an integer for the height, or none, the common part is the same
    whichever way it is written. *)
Lemma standard_1d_any_on_integers
    zpl_code orientation check_digit_one (height : option Z)
    print_text text_above check_digit_two :
  _add_standard_1d_barcode_any zpl_code orientation check_digit_one
    (option_map VInt height) print_text text_above check_digit_two
  = _add_standard_1d_barcode zpl_code orientation check_digit_one height
      print_text text_above check_digit_two.
Proof. destruct height; reflexivity. Qed.

(** Solves [append_only] for a public method. *)
Ltac method_grows :=
  intros;
  match goal with
  | |- append_only ?m =>
      let h := eval cbv beta in m in
      let rec head t := match t with ?f _ => head f | _ => t end in
      let f := head h in
      unfold f
  end;
  grows.

(** X1. No method of the formatter removes or rewrites a fragment: for
    every argument and every stream, the stream it leaves, when it returns
    and when it raises, is the one it found with fragments added at the
    end. *)
Theorem every_method_is_append_only :
  ((forall f o h w, append_only (add_font f o h w))
   /\ (forall x y, append_only (add_label_home x y))
   /\ (forall x y j, append_only (add_field_origin x y j))
   /\ (forall w m d t h, append_only (add_field_block w m d t h))
   /\ (forall q p r o c, append_only (add_print_quantity q p r o c))
   /\ (forall d r, append_only (add_field_data d r))
   /\ (forall t, append_only (add_comment t))
   /\ (forall w h b c r, append_only (add_graphic_box w h b c r))
   /\ (forall d b c, append_only (add_graphic_circle d b c))
   /\ (forall w r h, append_only (add_barcode_default w r h)))
  /\ ((forall d, append_only (add_field_data_code_11 d))
      /\ (forall d, append_only (add_field_data_interleaved_2_of_5 d))
      /\ (forall d e, append_only (add_field_data_code_39 d e))
      /\ (forall d, append_only (add_field_data_planet_code d))
      /\ (forall d, append_only (add_field_data_ean_8 d))
      /\ (forall d, append_only (add_field_data_upc_e d))
      /\ (forall d e, append_only (add_field_data_code_93 d e))
      /\ (forall d, append_only (add_field_data_ean_13 d))
      /\ (forall d, append_only (add_field_data_industrial_2_of_5 d))
      /\ (forall d, append_only (add_field_data_standard_2_of_5 d))
      /\ (forall d a b, append_only (add_field_data_ansi_codabar d a b))
      /\ (forall d, append_only (add_field_data_logmars d))
      /\ (forall d c, append_only (add_field_data_msi d c))
      /\ (forall d, append_only (add_field_data_plessey d))
      /\ (forall d, append_only (add_field_data_upc_ean_extensions d))
      /\ (forall e s a, append_only (add_field_data_tlc39 e s a))
      /\ (forall d, append_only (add_field_data_upc_a d))
      /\ (forall d, append_only (add_field_data_postal d)))
  /\ ((forall o m e s u n i, append_only (add_barcode_aztec o m e s u n i))
      /\ (forall o c h p t, append_only (add_barcode_code_11 o c h p t))
      /\ (forall o h p t c, append_only (add_barcode_interleaved_2_of_5 o h p t c))
      /\ (forall o c h p t, append_only (add_barcode_code_39 o c h p t))
      /\ (forall o h p t s, append_only (add_barcode_code_49 o h p t s))
      /\ (forall o h p t, append_only (add_barcode_planet_code o h p t))
      /\ (forall o h s c r t, append_only (add_barcode_pdf417 o h s c r t))
      /\ (forall o h p t, append_only (add_barcode_ean_8 o h p t))
      /\ (forall o h p t c, append_only (add_barcode_upc_e o h p t c))
      /\ (forall o h p t c, append_only (add_barcode_code_93 o h p t c))
      /\ (forall o h s c r m, append_only (add_barcode_codablock o h s c r m))
      /\ (forall o h p t c, append_only (add_barcode_code_128 o h p t c))
      /\ (forall m n c, append_only (add_barcode_ups_maxicode m n c))
      /\ (forall o h p t, append_only (add_barcode_ean_13 o h p t))
      /\ (forall o h m, append_only (add_barcode_micropdf_417 o h m))
      /\ (forall o h p t, append_only (add_barcode_industrial_2_of_5 o h p t))
      /\ (forall o h p t, append_only (add_barcode_standard_2_of_5 o h p t))
      /\ (forall o h p t a b, append_only (add_barcode_ansi_codabar o h p t a b))
      /\ (forall o h t, append_only (add_barcode_logmars o h t))
      /\ (forall o c h p t i, append_only (add_barcode_msi o c h p t i))
      /\ (forall o c h p t, append_only (add_barcode_plessey o c h p t))
      /\ (forall m g e k, append_only (add_barcode_qr m g e k))
      /\ (forall o s m p h w, append_only (add_barcode_gs1_batabar o s m p h w))
      /\ (forall o h p t, append_only (add_barcode_upc_ean_extensions o h p t))
      /\ (forall o w r h mh mw, append_only (add_barcode_tlc39 o w r h mh mw))
      /\ (forall o h p t c, append_only (add_barcode_upc_a o h p t c))
      /\ (forall o h q c r f e a, append_only (add_barcode_data_matrix o h q c r f e a))
      /\ (forall o h p t c, append_only (add_barcode_postal o h p t c)))
  /\ append_only zpl_text
  /\ append_only zpl_bytes.
Proof.
  repeat split; try method_grows.
  - intros zpl. apply extends_refl.
  - intros zpl. apply extends_refl.
Qed.

(** ** Every method ends on a newline *)

Lemma ends_with_newline__newline_after func :
  append_only func -> ends_with_newline (_newline_after func).
Proof.
  intros H zpl a zpl' E. unfold _newline_after, bind in E.
  specialize (H zpl). destruct (func zpl) as [u z|e z]; [|discriminate E].
  simpl in H. destruct H as [added ->]. injection E as _ <-.
  exists added. now rewrite <- app_assoc.
Qed.

Lemma ends_with_newline_raise {A} (e : exn) : ends_with_newline (@raise A e).
Proof. intros zpl a zpl' E. discriminate E. Qed.

Lemma ends_with_newline_bind {A B} (m : M A) (k : A -> M B) :
  append_only m -> (forall a, ends_with_newline (k a)) -> ends_with_newline (bind m k).
Proof.
  intros Hm Hk zpl b zpl' E. unfold bind in E. specialize (Hm zpl).
  destruct (m zpl) as [a z|e z]; [|discriminate E].
  simpl in Hm. destruct Hm as [added ->]. destruct (Hk a _ _ _ E) as [more ->].
  exists (added ++ more)%list. now repeat rewrite <- app_assoc.
Qed.

Lemma ends_with_newline_add_field_data data_list replace_newlines :
  ends_with_newline (add_field_data data_list replace_newlines).
Proof. unfold add_field_data. apply ends_with_newline__newline_after. grows. Qed.

(** Solves [ends_with_newline] for a public method. *)
Ltac method_ends :=
  intros;
  match goal with
  | |- ends_with_newline ?m =>
      let h := eval cbv beta in m in
      let rec head t := match t with ?f _ => head f | _ => t end in
      let f := head h in
      unfold f
  end;
  repeat first
    [ apply ends_with_newline__newline_after; solve [grows]
    | apply ends_with_newline_add_field_data
    | apply ends_with_newline_raise
    | apply ends_with_newline_bind; [solve [grows] | intros ?]
    | progress cbv zeta
    | match goal with
      | |- ends_with_newline (if ?b then _ else _) => destruct b
      | |- ends_with_newline (match ?x with _ => _ end) => destruct x
      end ].

(** X2. Every command method and every field data method that returns
    has appended at least one fragment, and the last fragment it appended
    is a newline. *)
Theorem every_method_ends_with_newline :
  ((forall f o h w, ends_with_newline (add_font f o h w))
   /\ (forall x y, ends_with_newline (add_label_home x y))
   /\ (forall x y j, ends_with_newline (add_field_origin x y j))
   /\ (forall w m d t h, ends_with_newline (add_field_block w m d t h))
   /\ (forall q p r o c, ends_with_newline (add_print_quantity q p r o c))
   /\ (forall d r, ends_with_newline (add_field_data d r))
   /\ (forall t, ends_with_newline (add_comment t))
   /\ (forall w h b c r, ends_with_newline (add_graphic_box w h b c r))
   /\ (forall d b c, ends_with_newline (add_graphic_circle d b c))
   /\ (forall w r h, ends_with_newline (add_barcode_default w r h)))
  /\ ((forall d, ends_with_newline (add_field_data_code_11 d))
      /\ (forall d, ends_with_newline (add_field_data_interleaved_2_of_5 d))
      /\ (forall d e, ends_with_newline (add_field_data_code_39 d e))
      /\ (forall d, ends_with_newline (add_field_data_planet_code d))
      /\ (forall d, ends_with_newline (add_field_data_ean_8 d))
      /\ (forall d, ends_with_newline (add_field_data_upc_e d))
      /\ (forall d e, ends_with_newline (add_field_data_code_93 d e))
      /\ (forall d, ends_with_newline (add_field_data_ean_13 d))
      /\ (forall d, ends_with_newline (add_field_data_industrial_2_of_5 d))
      /\ (forall d, ends_with_newline (add_field_data_standard_2_of_5 d))
      /\ (forall d a b, ends_with_newline (add_field_data_ansi_codabar d a b))
      /\ (forall d, ends_with_newline (add_field_data_logmars d))
      /\ (forall d c, ends_with_newline (add_field_data_msi d c))
      /\ (forall d, ends_with_newline (add_field_data_plessey d))
      /\ (forall d, ends_with_newline (add_field_data_upc_ean_extensions d))
      /\ (forall e s a, ends_with_newline (add_field_data_tlc39 e s a))
      /\ (forall d, ends_with_newline (add_field_data_upc_a d))
      /\ (forall d, ends_with_newline (add_field_data_postal d)))
  /\ ((forall o m e s u n i, ends_with_newline (add_barcode_aztec o m e s u n i))
      /\ (forall o c h p t, ends_with_newline (add_barcode_code_11 o c h p t))
      /\ (forall o h p t c, ends_with_newline (add_barcode_interleaved_2_of_5 o h p t c))
      /\ (forall o c h p t, ends_with_newline (add_barcode_code_39 o c h p t))
      /\ (forall o h p t s, ends_with_newline (add_barcode_code_49 o h p t s))
      /\ (forall o h p t, ends_with_newline (add_barcode_planet_code o h p t))
      /\ (forall o h s c r t, ends_with_newline (add_barcode_pdf417 o h s c r t))
      /\ (forall o h p t, ends_with_newline (add_barcode_ean_8 o h p t))
      /\ (forall o h p t c, ends_with_newline (add_barcode_upc_e o h p t c))
      /\ (forall o h p t c, ends_with_newline (add_barcode_code_93 o h p t c))
      /\ (forall o h s c r m, ends_with_newline (add_barcode_codablock o h s c r m))
      /\ (forall o h p t c, ends_with_newline (add_barcode_code_128 o h p t c))
      /\ (forall m n c, ends_with_newline (add_barcode_ups_maxicode m n c))
      /\ (forall o h p t, ends_with_newline (add_barcode_ean_13 o h p t))
      /\ (forall o h m, ends_with_newline (add_barcode_micropdf_417 o h m))
      /\ (forall o h p t, ends_with_newline (add_barcode_industrial_2_of_5 o h p t))
      /\ (forall o h p t, ends_with_newline (add_barcode_standard_2_of_5 o h p t))
      /\ (forall o h p t a b, ends_with_newline (add_barcode_ansi_codabar o h p t a b))
      /\ (forall o h t, ends_with_newline (add_barcode_logmars o h t))
      /\ (forall o c h p t i, ends_with_newline (add_barcode_msi o c h p t i))
      /\ (forall o c h p t, ends_with_newline (add_barcode_plessey o c h p t))
      /\ (forall m g e k, ends_with_newline (add_barcode_qr m g e k))
      /\ (forall o s m p h w, ends_with_newline (add_barcode_gs1_batabar o s m p h w))
      /\ (forall o h p t, ends_with_newline (add_barcode_upc_ean_extensions o h p t))
      /\ (forall o w r h mh mw, ends_with_newline (add_barcode_tlc39 o w r h mh mw))
      /\ (forall o h p t c, ends_with_newline (add_barcode_upc_a o h p t c))
      /\ (forall o h q c r f e a, ends_with_newline (add_barcode_data_matrix o h q c r f e a))
      /\ (forall o h p t c, ends_with_newline (add_barcode_postal o h p t c))).
Proof.
  repeat split; method_ends.
Qed.

(** ** Validation and emission of one field *)

Lemma orientation_accepted orientation comma zpl :
  is_orientation orientation ->
  _add_orientation orientation comma zpl
  = Returned tt (zpl ++ separator comma ++ [str orientation])%list.
Proof. intros H. now apply value_in_list_accepted. Qed.

(** X3. Each validator either raises and leaves the stream untouched, or
    appends the comma it was asked for and the value: the range validator
    under the reject policy raises exactly on the values outside the
    bounds, the enumerated validator exactly on the values whose string is
    none of the allowed ones, the decimal validator exactly outside the
    bounds; under the clamp policy the range validator never raises. *)
Theorem validators_are_atomic :
  forall (zpl : stream) (field : string) (min_value max_value : Z) (comma : bool)
         (value : Z) (choice : pyval) (valid_values : list pyval) (decimal : num),
    (if (min_value <=? value) && (value <=? max_value)
     then _add_int_value_in_range value field min_value max_value comma false zpl
          = Returned tt (zpl ++ separator comma ++ [str_int value])%list
     else _add_int_value_in_range value field min_value max_value comma false zpl
          = Raised (range_error field min_value max_value) zpl)
    /\ _add_int_value_in_range value field min_value max_value comma true zpl
       = Returned tt (zpl ++ separator comma
                      ++ [str_int (Z.max min_value (Z.min max_value value))])%list
    /\ (if mem (str choice) (map str valid_values)
        then _add_value_in_list choice field valid_values comma zpl
             = Returned tt (zpl ++ separator comma ++ [str choice])%list
        else _add_value_in_list choice field valid_values comma zpl
             = Raised (list_error field valid_values) zpl)
    /\ (if num_in_range min_value max_value decimal
        then _add_decimal_value_in_range decimal field min_value max_value comma zpl
             = Returned tt (zpl ++ separator comma ++ [str_round1 decimal])%list
        else exists msg,
             _add_decimal_value_in_range decimal field min_value max_value comma zpl
             = Raised (ValueError msg) zpl).
Proof.
  intros zpl field lo hi comma value choice valid_values decimal.
  repeat split.
  - destruct ((lo <=? value) && (value <=? hi)) eqn:E.
    + apply andb_true_iff in E. destruct E as [E1 E2].
      apply in_range_accepted. split; now apply Z.leb_le.
    + apply out_of_range_rejected. apply andb_false_iff in E.
      destruct E as [E | E]; apply Z.leb_gt in E; lia.
  - unfold _add_int_value_in_range. simpl.
    unfold bind at 1, ret at 1.
    erewrite bind_returned by apply _add_comma_run.
    unfold _add_int. rewrite append_run. now rewrite <- app_assoc.
  - destruct (mem (str choice) (map str valid_values)) eqn:E.
    + now apply value_in_list_accepted.
    + now apply value_in_list_rejected.
  - destruct (num_in_range lo hi decimal) eqn:E.
    + now apply decimal_in_range_accepted.
    + eexists. now apply decimal_out_of_range_rejected.
Qed.

(** X4. A value that fails its validation in the middle of a command
    stops the command where it is: with a valid quantity and a
    pause_and_cut_count outside 0..99999999, add_print_quantity raises the
    range error of that field, and the stream keeps '^PQ' and the quantity,
    with neither a comma nor a newline after them. *)
Theorem add_print_quantity_no_rollback :
  forall (zpl : stream) (quantity pause_and_cut_count : Z)
         (replicates_of_serial : option Z) (override_pause cut_on_error : option pyval),
    1 <= quantity <= 99999999 ->
    pause_and_cut_count < 0 \/ 99999999 < pause_and_cut_count ->
    add_print_quantity (Some quantity) (Some pause_and_cut_count)
      replicates_of_serial override_pause cut_on_error zpl
    = Raised (range_error "pause_and_cut_count" 0 99999999)
             (zpl ++ ["^PQ"; str_int quantity])%list.
Proof.
  intros zpl q p r o c Hq Hp. unfold add_print_quantity.
  apply _newline_after_raised.
  opcode. step in_range_accepted.
  erewrite bind_raised; [|now apply out_of_range_rejected].
  now tidy.
Qed.

Lemma add_print_quantity_no_rollback_witness :
  add_print_quantity (Some 5) (Some (-1)) (Some 3) None None __init__
  = Raised (range_error "pause_and_cut_count" 0 99999999)
           (__init__ ++ ["^PQ"; str_int 5])%list.
Proof.
  apply (add_print_quantity_no_rollback __init__ 5 (-1) (Some 3) None None).
  - lia.
  - left; lia.
Defined.

(** ** Text and graphics commands *)

(** X5. add_font treats a width of 0 as no width: nothing is appended for
    it and no error is raised, although 0 is outside 10..32000; any other
    width outside 10..32000 raises the range error after the font, the
    orientation and the height were appended. *)
Theorem add_font_skips_zero_width :
  forall (zpl : stream) (font_name : string) (orientation : pyval)
         (character_height width : Z),
    is_orientation orientation ->
    10 <= character_height <= 32000 ->
    width <> 0 ->
    width < 10 \/ 32000 < width ->
    add_font font_name (Some orientation) (Some character_height) (Some 0) zpl
    = Returned tt (zpl ++ ["^A"; font_name; ","; str orientation;
                           ","; str_int character_height; nl])%list
    /\ add_font font_name (Some orientation) (Some character_height) None zpl
       = Returned tt (zpl ++ ["^A"; font_name; ","; str orientation;
                              ","; str_int character_height; nl])%list
    /\ add_font font_name (Some orientation) (Some character_height) (Some width) zpl
       = Raised (range_error "width" 10 32000)
                (zpl ++ ["^A"; font_name; ","; str orientation;
                         ","; str_int character_height])%list.
Proof.
  intros zpl font o h w Ho Hh Hw0 Hw. unfold add_font. repeat split.
  - erewrite _newline_after_returned.
    2:{ do 2 opcode. step orientation_accepted. step in_range_accepted. reflexivity. }
    now tidy.
  - erewrite _newline_after_returned.
    2:{ do 2 opcode. step orientation_accepted. step in_range_accepted. reflexivity. }
    now tidy.
  - apply _newline_after_raised.
    do 2 opcode. step orientation_accepted. step in_range_accepted.
    unfold truthy_int. apply Z.eqb_neq in Hw0. rewrite Hw0. cbn [negb]. cbv beta iota.
    rewrite out_of_range_rejected by assumption.
    now tidy.
Qed.

Lemma add_font_skips_zero_width_witness :
  add_font "A" (Some (VStr "N")) (Some 20) (Some 0) __init__
  = Returned tt (__init__ ++ ["^A"; "A"; ","; "N"; ","; str_int 20; nl])%list
  /\ add_font "A" (Some (VStr "N")) (Some 20) None __init__
     = Returned tt (__init__ ++ ["^A"; "A"; ","; "N"; ","; str_int 20; nl])%list
  /\ add_font "A" (Some (VStr "N")) (Some 20) (Some 5) __init__
     = Raised (range_error "width" 10 32000)
              (__init__ ++ ["^A"; "A"; ","; "N"; ","; str_int 20])%list.
Proof.
  apply (add_font_skips_zero_width __init__ "A" (VStr "N") 20 5).
  - reflexivity.
  - lia.
  - lia.
  - left; lia.
Defined.

(** X6. In add_graphic_box the border is the least width and the least
    height: with a border in 1..32000, sides between the border and 32000
    are appended, a width below the border raises with only '^GB'
    appended, and a height below the border raises after the width; a
    border of 0 lowers the least side to 1 and then raises as a border,
    after the width and the height were appended. *)
Theorem add_graphic_box_border_bounds_sides :
  forall (zpl : stream) (width height border small : Z),
    1 <= border <= 32000 ->
    border <= width <= 32000 ->
    border <= height <= 32000 ->
    small < border ->
    add_graphic_box (Some width) (Some height) (Some border) None None zpl
    = Returned tt (zpl ++ ["^GB"; str_int width; ","; str_int height;
                           ","; str_int border; nl])%list
    /\ add_graphic_box (Some small) (Some height) (Some border) None None zpl
       = Raised (range_error "width" border 32000) (zpl ++ ["^GB"])%list
    /\ add_graphic_box (Some width) (Some small) (Some border) None None zpl
       = Raised (range_error "height" border 32000)
                (zpl ++ ["^GB"; str_int width])%list
    /\ add_graphic_box (Some width) (Some height) (Some 0) None None zpl
       = Raised (range_error "border" 1 32000)
                (zpl ++ ["^GB"; str_int width; ","; str_int height])%list
    /\ add_graphic_box (Some width) (Some height) None None None zpl
       = Returned tt (zpl ++ ["^GB"; str_int width; ","; str_int height; nl])%list.
Proof.
  intros zpl w h b small Hb Hw Hh Hs.
  assert (T : truthy_int (Some b) = true)
    by (unfold truthy_int; apply negb_true_iff, Z.eqb_neq; lia).
  unfold add_graphic_box. rewrite T. repeat split.
  - erewrite _newline_after_returned.
    2:{ opcode. do 3 step in_range_accepted. reflexivity. }
    now tidy.
  - apply _newline_after_raised. opcode.
    erewrite bind_raised; [reflexivity|].
    apply out_of_range_rejected. now left.
  - apply _newline_after_raised. opcode. step in_range_accepted.
    erewrite bind_raised; [|apply out_of_range_rejected; now left].
    now tidy.
  - apply _newline_after_raised. opcode. simpl truthy_int. cbv iota.
    do 2 step in_range_accepted.
    erewrite bind_raised; [|apply out_of_range_rejected; left; lia].
    now tidy.
  - erewrite _newline_after_returned.
    2:{ opcode. do 2 step in_range_accepted. reflexivity. }
    now tidy.
Qed.

Lemma add_graphic_box_border_bounds_sides_witness :
  add_graphic_box (Some 50) (Some 60) (Some 10) None None __init__
  = Returned tt (__init__ ++ ["^GB"; str_int 50; ","; str_int 60;
                              ","; str_int 10; nl])%list
  /\ add_graphic_box (Some 5) (Some 60) (Some 10) None None __init__
     = Raised (range_error "width" 10 32000) (__init__ ++ ["^GB"])%list
  /\ add_graphic_box (Some 50) (Some 5) (Some 10) None None __init__
     = Raised (range_error "height" 10 32000)
              (__init__ ++ ["^GB"; str_int 50])%list
  /\ add_graphic_box (Some 50) (Some 60) (Some 0) None None __init__
     = Raised (range_error "border" 1 32000)
              (__init__ ++ ["^GB"; str_int 50; ","; str_int 60])%list
  /\ add_graphic_box (Some 50) (Some 60) None None None __init__
     = Returned tt (__init__ ++ ["^GB"; str_int 50; ","; str_int 60; nl])%list.
Proof.
  apply (add_graphic_box_border_bounds_sides __init__ 50 60 10 5).
  - lia.
  - lia.
  - lia.
  - lia.
Defined.

(** ** One-dimensional bar codes *)

Lemma bind_unit_ret (m : M unit) (zpl : stream) :
  (m ;; ret tt) zpl = m zpl.
Proof. unfold bind, ret. destruct (m zpl) as [[] z|e z]; reflexivity. Qed.

(** Without an orientation the common part appends the opcode alone. *)
Lemma standard_1d_without_orientation
    zpl_code check_digit_one height print_text text_above check_digit_two zpl :
  _add_standard_1d_barcode zpl_code None check_digit_one height
    print_text text_above check_digit_two zpl
  = Returned tt (zpl ++ [("^" ++ zpl_code)%string])%list.
Proof. reflexivity. Qed.

(** The common part with an orientation, around its check digit. *)
Lemma standard_1d_check_digit
    (zpl : stream) (zpl_code : string) (orientation check_digit dropped print_text : pyval)
    (height : Z) :
  is_orientation orientation ->
  check_digit = VStr "Y" \/ check_digit = VStr "N" ->
  truthy (Some dropped) = false ->
  1 <= height <= 32000 ->
  _add_standard_1d_barcode zpl_code (Some orientation) None (Some height) None None None zpl
  = Returned tt (zpl ++ [("^" ++ zpl_code)%string; str orientation;
                         ","; str_int height])%list
  /\ _add_standard_1d_barcode zpl_code (Some orientation) (Some check_digit) (Some height)
       None None None zpl
     = Returned tt (zpl ++ [("^" ++ zpl_code)%string; str orientation;
                            ","; str check_digit; ","; str_int height])%list
  /\ _add_standard_1d_barcode zpl_code (Some orientation) (Some dropped) (Some height)
       None None None zpl
     = Returned tt (zpl ++ [("^" ++ zpl_code)%string; str orientation;
                            ","; str_int height])%list
  /\ _add_standard_1d_barcode zpl_code (Some orientation) (Some check_digit) None
       (Some print_text) None None zpl
     = Returned tt (zpl ++ [("^" ++ zpl_code)%string; str orientation;
                            ","; str check_digit])%list.
Proof.
  intros Ho Hcd Hdrop Hh.
  assert (Ycd : yes_no check_digit) by (destruct Hcd as [-> | ->]; [now left | now right]).
  assert (Tcd : truthy (Some check_digit) = true)
    by (destruct Hcd as [-> | ->]; reflexivity).
  unfold _add_standard_1d_barcode. rewrite Tcd, Hdrop. repeat split.
  - opcode. step orientation_accepted. cbn [truthy]. cbv beta iota.
    erewrite bind_returned; [|reflexivity]. step in_range_accepted.
    unfold ret. now tidy.
  - opcode. step orientation_accepted. cbv beta iota.
    step yes_no_accepted. step in_range_accepted. unfold ret. now tidy.
  - opcode. step orientation_accepted. cbv beta iota.
    erewrite bind_returned; [|reflexivity]. step in_range_accepted.
    unfold ret. now tidy.
  - opcode. step orientation_accepted. cbv beta iota.
    step yes_no_accepted. unfold ret. now tidy.
Qed.

(** X7. In each of the three bar codes with a leading check digit (Code
    39, Code 11 and Plessey) a missing check digit does not stop the
    command: the height follows the orientation directly.  A check digit
    of 'Y' or 'N' goes between them; a check digit that is false in Python
    (0 or the empty string) is dropped without an error; and a missing
    height stops the command even when print_text is supplied. *)
Theorem check_digit_one_does_not_halt :
  forall (zpl : stream) (orientation check_digit dropped print_text : pyval) (height : Z),
    is_orientation orientation ->
    check_digit = VStr "Y" \/ check_digit = VStr "N" ->
    truthy (Some dropped) = false ->
    1 <= height <= 32000 ->
    let behaves (opcode : string)
                (barcode : option pyval -> option pyval -> option Z
                           -> option pyval -> option pyval -> M unit) :=
      barcode (Some orientation) None (Some height) None None zpl
      = Returned tt (zpl ++ [opcode; str orientation; ","; str_int height; nl])%list
      /\ barcode (Some orientation) (Some check_digit) (Some height) None None zpl
         = Returned tt (zpl ++ [opcode; str orientation; ","; str check_digit;
                                ","; str_int height; nl])%list
      /\ barcode (Some orientation) (Some dropped) (Some height) None None zpl
         = Returned tt (zpl ++ [opcode; str orientation; ","; str_int height; nl])%list
      /\ barcode (Some orientation) (Some check_digit) None (Some print_text) None zpl
         = Returned tt (zpl ++ [opcode; str orientation; ","; str check_digit; nl])%list in
    behaves "^B3" add_barcode_code_39
    /\ behaves "^B1" add_barcode_code_11
    /\ behaves "^BP" add_barcode_plessey.
Proof.
  intros zpl o cd dropped pt h Ho Hcd Hdrop Hh behaves. subst behaves.
  unfold add_barcode_code_39, add_barcode_code_11, add_barcode_plessey.
  repeat split.
  all: erewrite _newline_after_returned;
    [ | apply (standard_1d_check_digit zpl _ o cd dropped pt h Ho Hcd Hdrop Hh) ];
    tidy; reflexivity.
Qed.

Lemma check_digit_one_does_not_halt_witness :
  let behaves (opcode : string)
              (barcode : option pyval -> option pyval -> option Z
                         -> option pyval -> option pyval -> M unit) :=
    barcode (Some (VStr "N")) None (Some 100) None None __init__
    = Returned tt (__init__ ++ [opcode; "N"; ","; str_int 100; nl])%list
    /\ barcode (Some (VStr "N")) (Some (VStr "Y")) (Some 100) None None __init__
       = Returned tt (__init__ ++ [opcode; "N"; ","; "Y"; ","; str_int 100; nl])%list
    /\ barcode (Some (VStr "N")) (Some (VInt 0)) (Some 100) None None __init__
       = Returned tt (__init__ ++ [opcode; "N"; ","; str_int 100; nl])%list
    /\ barcode (Some (VStr "N")) (Some (VStr "Y")) None (Some (VStr "Y")) None __init__
       = Returned tt (__init__ ++ [opcode; "N"; ","; "Y"; nl])%list in
  behaves "^B3" add_barcode_code_39
  /\ behaves "^B1" add_barcode_code_11
  /\ behaves "^BP" add_barcode_plessey.
Proof.
  apply (check_digit_one_does_not_halt __init__ (VStr "N") (VStr "Y") (VInt 0) (VStr "Y") 100).
  - reflexivity.
  - left; reflexivity.
  - reflexivity.
  - lia.
Defined.

(** X8. The parameters that a bar code method adds after the common part
    are appended even when the common part stopped early: without an
    orientation, add_barcode_postal appends its code_type, add_barcode_logmars
    its text_above and add_barcode_ansi_codabar its start_character right
    after the opcode and a comma, whatever the parameters in between are;
    with an orientation and no height the code_type follows the
    orientation. *)
Theorem wrapper_parameters_survive_the_halt :
  forall (zpl : stream) (orientation text_above start_character : pyval) (code_type : Z)
         (height : option Z) (print_text above : option pyval),
    is_orientation orientation ->
    0 <= code_type <= 3 ->
    yes_no text_above ->
    mem (str start_character) ["A"; "B"; "C"; "D"] = true ->
    add_barcode_postal None height print_text above (Some code_type) zpl
    = Returned tt (zpl ++ ["^BZ"; ","; str_int code_type; nl])%list
    /\ add_barcode_postal (Some orientation) None print_text above (Some code_type) zpl
       = Returned tt (zpl ++ ["^BZ"; str orientation; ","; str_int code_type; nl])%list
    /\ add_barcode_logmars None height (Some text_above) zpl
       = Returned tt (zpl ++ ["^BJ"; ","; str text_above; nl])%list
    /\ add_barcode_ansi_codabar None height print_text above (Some start_character) None zpl
       = Returned tt (zpl ++ ["^BK"; ","; str start_character; nl])%list.
Proof.
  intros zpl o ta start ct h pt above Ho Hct Hta Hstart.
  unfold add_barcode_postal, add_barcode_logmars, add_barcode_ansi_codabar.
  repeat split.
  - erewrite _newline_after_returned.
    2:{ step standard_1d_without_orientation. now apply in_range_accepted. }
    now tidy.
  - erewrite _newline_after_returned.
    2:{ erewrite bind_returned.
        2:{ unfold _add_standard_1d_barcode. opcode. step orientation_accepted.
            reflexivity. }
        now apply in_range_accepted. }
    now tidy.
  - erewrite _newline_after_returned.
    2:{ step standard_1d_without_orientation. now apply yes_no_accepted. }
    now tidy.
  - erewrite _newline_after_returned.
    2:{ step standard_1d_without_orientation.
        erewrite bind_returned; [reflexivity|].
        now apply value_in_list_accepted. }
    now tidy.
Qed.

Lemma wrapper_parameters_survive_the_halt_witness :
  add_barcode_postal None (Some 10) None None (Some 1) __init__
  = Returned tt (__init__ ++ ["^BZ"; ","; str_int 1; nl])%list
  /\ add_barcode_postal (Some (VStr "N")) None None None (Some 1) __init__
     = Returned tt (__init__ ++ ["^BZ"; "N"; ","; str_int 1; nl])%list
  /\ add_barcode_logmars None (Some 10) (Some (VStr "Y")) __init__
     = Returned tt (__init__ ++ ["^BJ"; ","; "Y"; nl])%list
  /\ add_barcode_ansi_codabar None (Some 10) None None (Some (VStr "A")) None __init__
     = Returned tt (__init__ ++ ["^BK"; ","; "A"; nl])%list.
Proof.
  apply (wrapper_parameters_survive_the_halt __init__ (VStr "N") (VStr "Y") (VStr "A") 1
           (Some 10) None None).
  - reflexivity.
  - lia.
  - left; reflexivity.
  - reflexivity.
Defined.

(** X9. add_barcode_logmars emits the opcode of the Standard 2 of 5 bar
    code, '^BJ': without text_above it leaves exactly the stream that
    add_barcode_standard_2_of_5 leaves for the same orientation and height,
    on every input, and with an orientation, a height and a text_above of
    'Y' or 'N' it leaves what add_barcode_standard_2_of_5 leaves when that
    value is passed as print_text. *)
Theorem add_barcode_logmars_is_standard_2_of_5 :
  forall (zpl : stream) (orientation : option pyval) (height : option Z)
         (given_orientation text_above : pyval) (given_height : Z),
    is_orientation given_orientation ->
    1 <= given_height <= 32000 ->
    yes_no text_above ->
    add_barcode_logmars orientation height None zpl
    = add_barcode_standard_2_of_5 orientation height None None zpl
    /\ add_barcode_logmars (Some given_orientation) (Some given_height) (Some text_above) zpl
       = add_barcode_standard_2_of_5 (Some given_orientation) (Some given_height)
           (Some text_above) None zpl
    /\ add_barcode_logmars (Some given_orientation) (Some given_height) (Some text_above) zpl
       = Returned tt (zpl ++ ["^BJ"; str given_orientation; ","; str_int given_height;
                              ","; str text_above; nl])%list.
Proof.
  intros zpl o h go ta gh Ho Hh Hta.
  assert (L : add_barcode_logmars (Some go) (Some gh) (Some ta) zpl
              = Returned tt (zpl ++ ["^BJ"; str go; ","; str_int gh; ","; str ta; nl])%list).
  { unfold add_barcode_logmars, _add_standard_1d_barcode.
    erewrite _newline_after_returned.
    2:{ erewrite bind_returned.
        2:{ opcode. step orientation_accepted. cbn [truthy].
            erewrite bind_returned; [|reflexivity].
            step in_range_accepted. reflexivity. }
        now apply yes_no_accepted. }
    now tidy. }
  repeat split.
  - unfold add_barcode_logmars, add_barcode_standard_2_of_5, _newline_after.
    unfold bind at 1 3. now rewrite bind_unit_ret.
  - rewrite L. unfold add_barcode_standard_2_of_5, _add_standard_1d_barcode.
    erewrite _newline_after_returned.
    2:{ opcode. step orientation_accepted. cbn [truthy].
        erewrite bind_returned; [|reflexivity].
        step in_range_accepted. step yes_no_accepted. reflexivity. }
    now tidy.
  - exact L.
Qed.

Lemma add_barcode_logmars_is_standard_2_of_5_witness :
  add_barcode_logmars (Some (VStr "R")) None None __init__
  = add_barcode_standard_2_of_5 (Some (VStr "R")) None None None __init__
  /\ add_barcode_logmars (Some (VStr "N")) (Some 10) (Some (VStr "Y")) __init__
     = add_barcode_standard_2_of_5 (Some (VStr "N")) (Some 10) (Some (VStr "Y")) None __init__
  /\ add_barcode_logmars (Some (VStr "N")) (Some 10) (Some (VStr "Y")) __init__
     = Returned tt (__init__ ++ ["^BJ"; "N"; ","; str_int 10; ","; "Y"; nl])%list.
Proof.
  apply (add_barcode_logmars_is_standard_2_of_5 __init__ (Some (VStr "R")) None
           (VStr "N") (VStr "Y") 10).
  - reflexivity.
  - lia.
  - left; reflexivity.
Defined.

(** ** Character sets of the field data *)

Lemma legal_verified characters data zpl :
  legal characters data = true ->
  _verify_legal_characters data characters zpl = Returned tt zpl.
Proof.
  intros H. unfold _verify_legal_characters. unfold legal in H. now rewrite H.
Qed.

Lemma illegal_rejected characters data zpl :
  legal characters data = false ->
  _verify_legal_characters data characters zpl
  = Raised (illegal_characters characters) zpl.
Proof.
  intros H. unfold _verify_legal_characters. unfold legal in H. now rewrite H.
Qed.

(** One character outside the set makes the data illegal. *)
Lemma one_illegal_character characters data c :
  In c (list_ascii_of_string data) ->
  char_in c characters = false ->
  legal characters data = false.
Proof.
  unfold legal. induction data as [|d data IH]; simpl; [intros []|].
  intros [-> | H] Hc.
  - now rewrite Hc.
  - rewrite (IH H Hc). apply andb_false_r.
Qed.

Lemma lowercase_outside_code_39 c :
  between 97 122 c = true ->
  char_in c code_39_set = false /\ char_in c code_93_set = false.
Proof.
  destruct c as [[] [] [] [] [] [] [] []]; intros H;
    first [discriminate H | split; reflexivity].
Qed.

Lemma start_stop_outside_codabar c :
  char_in c "ABCD" = true -> char_in c codabar_set = false.
Proof.
  destruct c as [[] [] [] [] [] [] [] []]; intros H;
    first [discriminate H | reflexivity].
Qed.

(** X10. Field data of Code 39, LOGMARS and Code 93 is appended when all
    its characters are in the symbology's set; a payload with a lowercase
    letter raises a ValueError that quotes the allowed set and appends
    nothing; with extended_ascii set the methods raise NotImplementedError
    on every payload, appending nothing. *)
Theorem code_39_character_set :
  forall (zpl : stream) (good good93 bad any : string) (c : ascii),
    legal code_39_set good = true ->
    legal code_93_set good93 = true ->
    In c (list_ascii_of_string bad) ->
    between 97 122 c = true ->
    add_field_data_code_39 good false zpl
    = Returned tt (zpl ++ [field_data good; nl])%list
    /\ add_field_data_logmars good zpl
       = Returned tt (zpl ++ [field_data good; nl])%list
    /\ add_field_data_code_93 good93 false zpl
       = Returned tt (zpl ++ [field_data good93; nl])%list
    /\ add_field_data_code_39 bad false zpl
       = Raised (illegal_characters code_39_set) zpl
    /\ add_field_data_logmars bad zpl
       = Raised (illegal_characters code_39_set) zpl
    /\ add_field_data_code_93 bad false zpl
       = Raised (illegal_characters code_93_set) zpl
    /\ add_field_data_code_39 any true zpl = Raised NotImplementedError zpl
    /\ add_field_data_code_93 any true zpl = Raised NotImplementedError zpl.
Proof.
  intros zpl good good93 bad any c Hgood Hgood93 Hin Hlow.
  destruct (lowercase_outside_code_39 c Hlow) as [H39 H93].
  pose proof (one_illegal_character _ _ _ Hin H39) as B39.
  pose proof (one_illegal_character _ _ _ Hin H93) as B93.
  unfold add_field_data_logmars, add_field_data_code_39, add_field_data_code_93.
  repeat split.
  - step legal_verified. apply add_field_data_text.
  - step legal_verified. apply add_field_data_text.
  - step legal_verified. apply add_field_data_text.
  - apply bind_raised. now apply illegal_rejected.
  - apply bind_raised. now apply illegal_rejected.
  - apply bind_raised. now apply illegal_rejected.
Qed.

Lemma code_39_character_set_witness :
  add_field_data_code_39 "CODE-39 OK" false __init__
  = Returned tt (__init__ ++ [field_data "CODE-39 OK"; nl])%list
  /\ add_field_data_logmars "CODE-39 OK" __init__
     = Returned tt (__init__ ++ [field_data "CODE-39 OK"; nl])%list
  /\ add_field_data_code_93 "CODE/93 OK" false __init__
     = Returned tt (__init__ ++ [field_data "CODE/93 OK"; nl])%list
  /\ add_field_data_code_39 "Code" false __init__
     = Raised (illegal_characters code_39_set) __init__
  /\ add_field_data_logmars "Code" __init__
     = Raised (illegal_characters code_39_set) __init__
  /\ add_field_data_code_93 "Code" false __init__
     = Raised (illegal_characters code_93_set) __init__
  /\ add_field_data_code_39 "ANY" true __init__ = Raised NotImplementedError __init__
  /\ add_field_data_code_93 "ANY" true __init__ = Raised NotImplementedError __init__.
Proof.
  apply (code_39_character_set __init__ "CODE-39 OK" "CODE/93 OK" "Code" "ANY" "o"%char).
  - reflexivity.
  - reflexivity.
  - simpl; right; left; reflexivity.
  - reflexivity.
Defined.

(** X11. add_field_data_ansi_codabar checks the payload against the
    digits and '-:.$/+' only: the start and stop characters it is given
    play no part, so a payload that holds one of the letters A, B, C, D
    raises whatever start and stop characters are declared, and a payload
    within the set is appended. *)
Theorem ansi_codabar_ignores_start_and_stop :
  forall (zpl : stream) (good bad : string) (c : ascii) (start_char stop_char : option string),
    legal codabar_set good = true ->
    In c (list_ascii_of_string bad) ->
    char_in c "ABCD" = true ->
    add_field_data_ansi_codabar good start_char stop_char zpl
    = Returned tt (zpl ++ [field_data good; nl])%list
    /\ add_field_data_ansi_codabar bad start_char stop_char zpl
       = Raised (illegal_characters codabar_set) zpl.
Proof.
  intros zpl good bad c start stop Hgood Hin Hc.
  pose proof (one_illegal_character _ _ _ Hin (start_stop_outside_codabar c Hc)) as B.
  unfold add_field_data_ansi_codabar. cbv zeta. split.
  - step legal_verified. apply add_field_data_text.
  - apply bind_raised. now apply illegal_rejected.
Qed.

Lemma ansi_codabar_ignores_start_and_stop_witness :
  add_field_data_ansi_codabar "12-34" (Some "A") (Some "B") __init__
  = Returned tt (__init__ ++ [field_data "12-34"; nl])%list
  /\ add_field_data_ansi_codabar "A1234B" (Some "A") (Some "B") __init__
     = Raised (illegal_characters codabar_set) __init__.
Proof.
  apply (ansi_codabar_ignores_start_and_stop __init__ "12-34" "A1234B" "A"%char
           (Some "A") (Some "B")).
  - reflexivity.
  - simpl; left; reflexivity.
  - reflexivity.
Defined.

(** ** Two-dimensional and stacked bar codes *)

(** Runs the next accepted field of a command. *)
Ltac emit :=
  first
    [ step in_range_accepted
    | step orientation_accepted
    | step yes_no_accepted
    | step value_in_list_accepted
    | step decimal_in_range_accepted
    | opcode
    | erewrite bind_returned; [| apply _add_comma_run] ].

(** Decides the integer comparisons of a condition. *)
Ltac bounds :=
  repeat match goal with
         | |- context [?a <=? ?b] => destruct (Z.leb_spec a b)
         | |- context [?a =? ?b] => destruct (Z.eqb_spec a b)
         end;
  simpl; first [reflexivity | lia].

(** X12. add_barcode_aztec accepts an ec_symbol_size of 0, 1..99,
    101..104, 201..232 or 300 and writes the sizes 1..9 with a leading
    zero; any other size raises a ValueError after the orientation, the
    magnification and the ECIC flag were appended. *)
Theorem aztec_ec_symbol_size :
  forall (zpl : stream) (orientation ecic : pyval) (magnification small plain bad : Z),
    is_orientation orientation ->
    1 <= magnification <= 10 ->
    yes_no ecic ->
    1 <= small <= 9 ->
    plain = 0 \/ 10 <= plain <= 99 \/ 101 <= plain <= 104
      \/ 201 <= plain <= 232 \/ plain = 300 ->
    bad < 0 \/ bad = 100 \/ 105 <= bad <= 200 \/ 233 <= bad <= 299 \/ 300 < bad ->
    add_barcode_aztec (Some orientation) (Some magnification) (Some ecic) (Some small)
      None None None zpl
    = Returned tt (zpl ++ ["^B0"; str orientation; ","; str_int magnification;
                           ","; str ecic; ","; ("0" ++ str_int small)%string; nl])%list
    /\ add_barcode_aztec (Some orientation) (Some magnification) (Some ecic) (Some plain)
         None None None zpl
       = Returned tt (zpl ++ ["^B0"; str orientation; ","; str_int magnification;
                              ","; str ecic; ","; str_int plain; nl])%list
    /\ add_barcode_aztec (Some orientation) (Some magnification) (Some ecic) (Some bad)
         None None None zpl
       = Raised (ValueError "ec_symbol_size must be 0, 1-99, 101-104, 201-232, or 300.")
                (zpl ++ ["^B0"; str orientation; ","; str_int magnification;
                         ","; str ecic])%list.
Proof.
  intros zpl o ecic mag small plain bad Ho Hmag Hecic Hsmall Hplain Hbad.
  unfold add_barcode_aztec. repeat split.
  - erewrite _newline_after_returned.
    2:{ do 4 emit.
        replace (((0 <=? small) && (small <=? 99))
                 || ((101 <=? small) && (small <=? 104))
                 || ((201 <=? small) && (small <=? 232)) || (small =? 300))
          with true by (symmetry; bounds).
        replace ((1 <=? small) && (small <=? 9)) with true by (symmetry; bounds).
        cbn [negb]. cbv beta iota zeta. do 2 emit. reflexivity. }
    now tidy.
  - erewrite _newline_after_returned.
    2:{ do 4 emit.
        replace (((0 <=? plain) && (plain <=? 99))
                 || ((101 <=? plain) && (plain <=? 104))
                 || ((201 <=? plain) && (plain <=? 232)) || (plain =? 300))
          with true by (symmetry; bounds).
        replace ((1 <=? plain) && (plain <=? 9)) with false by (symmetry; bounds).
        cbn [negb]. cbv beta iota zeta. do 2 emit. reflexivity. }
    now tidy.
  - apply _newline_after_raised. do 4 emit.
    replace (((0 <=? bad) && (bad <=? 99))
             || ((101 <=? bad) && (bad <=? 104))
             || ((201 <=? bad) && (bad <=? 232)) || (bad =? 300))
      with false by (symmetry; bounds).
    cbn [negb]. cbv beta iota. unfold raise. now tidy.
Qed.

Lemma aztec_ec_symbol_size_witness :
  add_barcode_aztec (Some (VStr "N")) (Some 2) (Some (VStr "Y")) (Some 5) None None None __init__
  = Returned tt (__init__ ++ ["^B0"; "N"; ","; str_int 2; ","; "Y";
                              ","; ("0" ++ str_int 5)%string; nl])%list
  /\ add_barcode_aztec (Some (VStr "N")) (Some 2) (Some (VStr "Y")) (Some 203)
       None None None __init__
     = Returned tt (__init__ ++ ["^B0"; "N"; ","; str_int 2; ","; "Y";
                                 ","; str_int 203; nl])%list
  /\ add_barcode_aztec (Some (VStr "N")) (Some 2) (Some (VStr "Y")) (Some 100)
       None None None __init__
     = Raised (ValueError "ec_symbol_size must be 0, 1-99, 101-104, 201-232, or 300.")
              (__init__ ++ ["^B0"; "N"; ","; str_int 2; ","; "Y"])%list.
Proof.
  apply (aztec_ec_symbol_size __init__ (VStr "N") (VStr "Y") 2 5 203 100).
  - reflexivity.
  - lia.
  - left; reflexivity.
  - lia.
  - right; right; right; left; lia.
  - right; left; reflexivity.
Defined.

(** X13. add_barcode_code_49 turns print_text and text_above into one
    interpretation line: 'A' for print_text 'Y' with text_above 'Y', 'B'
    for print_text 'Y' with any other accepted text_above, 'N' for
    print_text 'N'.  A print_text other than 'Y' and 'N', and a text_above
    other than None, 'Y' and 'N', raise after the orientation and the
    height multiplier were appended; the height multiplier is any integer
    and follows the orientation without a comma. *)
Theorem code_49_interpretation_line :
  forall (zpl : stream) (orientation bad_print_text : pyval) (height_multiplier : Z)
         (text_above bad_text_above : option pyval),
    is_orientation orientation ->
    none_or_yes_no text_above = true ->
    value_in (Some bad_print_text) [VStr "Y"; VStr "N"] = false ->
    none_or_yes_no bad_text_above = false ->
    add_barcode_code_49 (Some orientation) (Some height_multiplier)
      (Some (VStr "Y")) (Some (VStr "Y")) None zpl
    = Returned tt (zpl ++ ["^B4"; str orientation; str_int height_multiplier;
                           ","; "A"; nl])%list
    /\ add_barcode_code_49 (Some orientation) (Some height_multiplier)
         (Some (VStr "Y")) (Some (VStr "N")) None zpl
       = Returned tt (zpl ++ ["^B4"; str orientation; str_int height_multiplier;
                              ","; "B"; nl])%list
    /\ add_barcode_code_49 (Some orientation) (Some height_multiplier)
         (Some (VStr "Y")) None None zpl
       = Returned tt (zpl ++ ["^B4"; str orientation; str_int height_multiplier;
                              ","; "B"; nl])%list
    /\ add_barcode_code_49 (Some orientation) (Some height_multiplier)
         (Some (VStr "N")) text_above None zpl
       = Returned tt (zpl ++ ["^B4"; str orientation; str_int height_multiplier;
                              ","; "N"; nl])%list
    /\ add_barcode_code_49 (Some orientation) (Some height_multiplier)
         (Some bad_print_text) text_above None zpl
       = Raised (ValueError "print_text should be Y or N")
                (zpl ++ ["^B4"; str orientation; str_int height_multiplier])%list
    /\ add_barcode_code_49 (Some orientation) (Some height_multiplier)
         (Some (VStr "Y")) bad_text_above None zpl
       = Raised (ValueError "text_above should be Y or N")
                (zpl ++ ["^B4"; str orientation; str_int height_multiplier])%list.
Proof.
  intros zpl o bad_pt h ta bad_ta Ho Hta Hpt Hbad.
  assert (I : forall z : stream, _add_int h z = Returned tt (z ++ [str_int h])%list)
    by reflexivity.
  unfold add_barcode_code_49. repeat split.
  - erewrite _newline_after_returned.
    2:{ do 2 emit. step I. cbn. reflexivity. }
    now tidy.
  - erewrite _newline_after_returned.
    2:{ do 2 emit. step I. cbn. reflexivity. }
    now tidy.
  - erewrite _newline_after_returned.
    2:{ do 2 emit. step I. cbn. reflexivity. }
    now tidy.
  - erewrite _newline_after_returned.
    2:{ do 2 emit. step I. rewrite Hta. cbn. reflexivity. }
    now tidy.
  - apply _newline_after_raised. do 2 emit. step I. rewrite Hpt.
    cbn [negb]. cbv beta iota. unfold raise. now tidy.
  - apply _newline_after_raised. do 2 emit. step I. rewrite Hbad.
    cbn. unfold raise. now tidy.
Qed.

Lemma code_49_interpretation_line_witness :
  add_barcode_code_49 (Some (VStr "N")) (Some 5) (Some (VStr "Y")) (Some (VStr "Y")) None __init__
  = Returned tt (__init__ ++ ["^B4"; "N"; str_int 5; ","; "A"; nl])%list
  /\ add_barcode_code_49 (Some (VStr "N")) (Some 5) (Some (VStr "Y")) (Some (VStr "N")) None
       __init__
     = Returned tt (__init__ ++ ["^B4"; "N"; str_int 5; ","; "B"; nl])%list
  /\ add_barcode_code_49 (Some (VStr "N")) (Some 5) (Some (VStr "Y")) None None __init__
     = Returned tt (__init__ ++ ["^B4"; "N"; str_int 5; ","; "B"; nl])%list
  /\ add_barcode_code_49 (Some (VStr "N")) (Some 5) (Some (VStr "N")) (Some (VStr "Y")) None
       __init__
     = Returned tt (__init__ ++ ["^B4"; "N"; str_int 5; ","; "N"; nl])%list
  /\ add_barcode_code_49 (Some (VStr "N")) (Some 5) (Some (VStr "X")) (Some (VStr "Y")) None
       __init__
     = Raised (ValueError "print_text should be Y or N")
              (__init__ ++ ["^B4"; "N"; str_int 5])%list
  /\ add_barcode_code_49 (Some (VStr "N")) (Some 5) (Some (VStr "Y")) (Some (VInt 1)) None
       __init__
     = Raised (ValueError "text_above should be Y or N")
              (__init__ ++ ["^B4"; "N"; str_int 5])%list.
Proof.
  apply (code_49_interpretation_line __init__ (VStr "N") (VStr "X") 5
           (Some (VStr "Y")) (Some (VInt 1))).
  - reflexivity.
  - reflexivity.
  - reflexivity.
  - reflexivity.
Defined.

(** X14. add_barcode_pdf417 appends its height right after the
    orientation, with no comma between them and no check of its value;
    the four parameters after it are validated and each follows a comma:
    a security_level outside 0..8, a data_column_count outside 1..30, a
    row_count outside 3..90 and a truncate that is not 'Y' or 'N' raise a
    ValueError, with the parameters before the failing one appended. *)
Theorem pdf417_height_without_comma :
  forall (zpl : stream) (orientation truncate bad_truncate : pyval)
         (height security_level data_column_count row_count : Z)
         (bad_security_level bad_data_column_count bad_row_count : Z),
    is_orientation orientation ->
    0 <= security_level <= 8 ->
    1 <= data_column_count <= 30 ->
    3 <= row_count <= 90 ->
    yes_no truncate ->
    bad_security_level < 0 \/ 8 < bad_security_level ->
    bad_data_column_count < 1 \/ 30 < bad_data_column_count ->
    bad_row_count < 3 \/ 90 < bad_row_count ->
    mem (str bad_truncate) ["Y"; "N"] = false ->
    let pdf417 := add_barcode_pdf417 (Some orientation) (Some height) in
    let head := ["^B7"; str orientation; str_int height] in
    pdf417 None None None None zpl
    = Returned tt (zpl ++ head ++ [nl])%list
    /\ pdf417 (Some security_level) (Some data_column_count) (Some row_count)
         (Some truncate) zpl
       = Returned tt (zpl ++ head ++ [","; str_int security_level;
                                      ","; str_int data_column_count;
                                      ","; str_int row_count;
                                      ","; str truncate; nl])%list
    /\ pdf417 (Some bad_security_level) (Some data_column_count) (Some row_count)
         (Some truncate) zpl
       = Raised (range_error "security_level" 0 8) (zpl ++ head)%list
    /\ pdf417 (Some security_level) (Some bad_data_column_count) (Some row_count)
         (Some truncate) zpl
       = Raised (range_error "data_column_count" 1 30)
           (zpl ++ head ++ [","; str_int security_level])%list
    /\ pdf417 (Some security_level) (Some data_column_count) (Some bad_row_count)
         (Some truncate) zpl
       = Raised (range_error "row_count" 3 90)
           (zpl ++ head ++ [","; str_int security_level;
                            ","; str_int data_column_count])%list
    /\ pdf417 (Some security_level) (Some data_column_count) (Some row_count)
         (Some bad_truncate) zpl
       = Raised (list_error "truncate" [VStr "Y"; VStr "N"])
           (zpl ++ head ++ [","; str_int security_level;
                            ","; str_int data_column_count;
                            ","; str_int row_count])%list.
Proof.
  intros zpl o tr bad_tr h sec cols rows bad_sec bad_cols bad_rows
         Ho Hsec Hcols Hrows Htr Bsec Bcols Brows Btr pdf417 head.
  assert (I : forall z : stream, _add_int h z = Returned tt (z ++ [str_int h])%list)
    by reflexivity.
  subst pdf417 head. unfold add_barcode_pdf417. repeat split.
  - erewrite _newline_after_returned.
    2:{ do 2 emit. step I. reflexivity. }
    now tidy.
  - erewrite _newline_after_returned.
    2:{ do 2 emit. step I. do 3 emit. now apply yes_no_accepted. }
    now tidy.
  - apply _newline_after_raised. do 2 emit. step I.
    erewrite bind_raised; [|apply out_of_range_rejected; assumption].
    now tidy.
  - apply _newline_after_raised. do 2 emit. step I. emit.
    erewrite bind_raised; [|apply out_of_range_rejected; assumption].
    now tidy.
  - apply _newline_after_raised. do 2 emit. step I. do 2 emit.
    erewrite bind_raised; [|apply out_of_range_rejected; assumption].
    now tidy.
  - apply _newline_after_raised. do 2 emit. step I. do 3 emit.
    unfold _add_yes_no. rewrite value_in_list_rejected by assumption.
    now tidy.
Qed.

Lemma pdf417_height_without_comma_witness :
  let pdf417 := add_barcode_pdf417 (Some (VStr "N")) (Some (-5)) in
  let head := ["^B7"; "N"; str_int (-5)] in
  pdf417 None None None None __init__
  = Returned tt (__init__ ++ head ++ [nl])%list
  /\ pdf417 (Some 3) (Some 10) (Some 20) (Some (VStr "N")) __init__
     = Returned tt (__init__ ++ head ++ [","; str_int 3; ","; str_int 10;
                                         ","; str_int 20; ","; "N"; nl])%list
  /\ pdf417 (Some 9) (Some 10) (Some 20) (Some (VStr "N")) __init__
     = Raised (range_error "security_level" 0 8) (__init__ ++ head)%list
  /\ pdf417 (Some 3) (Some 31) (Some 20) (Some (VStr "N")) __init__
     = Raised (range_error "data_column_count" 1 30)
         (__init__ ++ head ++ [","; str_int 3])%list
  /\ pdf417 (Some 3) (Some 10) (Some 2) (Some (VStr "N")) __init__
     = Raised (range_error "row_count" 3 90)
         (__init__ ++ head ++ [","; str_int 3; ","; str_int 10])%list
  /\ pdf417 (Some 3) (Some 10) (Some 20) (Some (VStr "yes")) __init__
     = Raised (list_error "truncate" [VStr "Y"; VStr "N"])
         (__init__ ++ head ++ [","; str_int 3; ","; str_int 10; ","; str_int 20])%list.
Proof.
  apply (pdf417_height_without_comma __init__ (VStr "N") (VStr "N") (VStr "yes")
           (-5) 3 10 20 9 31 2).
  - reflexivity.
  - lia.
  - lia.
  - lia.
  - right; reflexivity.
  - lia.
  - lia.
  - lia.
  - reflexivity.
Defined.

(** A mode that reads as none of 'A', 'E', 'F' equals none of them. *)
Lemma unknown_mode mode :
  mem (str mode) ["A"; "E"; "F"] = false ->
  value_in (Some mode) [VStr "E"; VStr "F"] = false
  /\ pyval_eqb mode (VStr "A") = false.
Proof.
  destruct mode as [z|s]; [split; reflexivity|].
  simpl. intros H.
  destruct (String.eqb s "A"); [discriminate H|].
  destruct (String.eqb s "E"); [discriminate H|].
  destruct (String.eqb s "F"); [discriminate H|].
  split; reflexivity.
Qed.

(** X15. In add_barcode_codablock the bounds of row_count depend on the
    mode: with 'E' and with 'F' every row count in 2..4 is appended and
    every other one raises the range error of 'row_count for type E and
    F'; with 'A' every row count in 1..22 is appended and every other one
    raises the range error of 'row_count for type A'; the mode is appended
    after the row count.  A mode that is none of the three raises the
    enumeration error with no row count appended; when row_count is
    omitted the mode is neither checked nor appended. *)
Theorem codablock_row_count_depends_on_mode :
  forall (zpl : stream) (orientation security_level unknown : pyval)
         (height characters_per_row row_count : Z),
    is_orientation orientation ->
    2 <= height <= 32000 ->
    yes_no security_level ->
    2 <= characters_per_row <= 62 ->
    mem (str unknown) ["A"; "E"; "F"] = false ->
    let common := ["^BB"; str orientation; ","; str_int height;
                   ","; str security_level; ","; str_int characters_per_row] in
    let codablock := add_barcode_codablock (Some orientation) (Some height)
                       (Some security_level) (Some characters_per_row) in
    (2 <= row_count <= 4 ->
       codablock (Some row_count) (VStr "F") zpl
       = Returned tt (zpl ++ common ++ [","; str_int row_count; ","; "F"; nl])%list
       /\ codablock (Some row_count) (VStr "E") zpl
          = Returned tt (zpl ++ common ++ [","; str_int row_count; ","; "E"; nl])%list)
    /\ (row_count < 2 \/ 4 < row_count ->
        codablock (Some row_count) (VStr "F") zpl
        = Raised (range_error "row_count for type E and F" 2 4) (zpl ++ common)%list
        /\ codablock (Some row_count) (VStr "E") zpl
           = Raised (range_error "row_count for type E and F" 2 4) (zpl ++ common)%list)
    /\ (1 <= row_count <= 22 ->
        codablock (Some row_count) (VStr "A") zpl
        = Returned tt (zpl ++ common ++ [","; str_int row_count; ","; "A"; nl])%list)
    /\ (row_count < 1 \/ 22 < row_count ->
        codablock (Some row_count) (VStr "A") zpl
        = Raised (range_error "row_count for type A" 1 22) (zpl ++ common)%list)
    /\ codablock (Some row_count) unknown zpl
       = Raised (list_error "mode" [VStr "A"; VStr "E"; VStr "F"]) (zpl ++ common)%list
    /\ codablock None unknown zpl
       = Returned tt (zpl ++ common ++ [nl])%list.
Proof.
  intros zpl o sec unknown h cpr rows Ho Hh Hsec Hcpr Hunknown common codablock.
  destruct (unknown_mode unknown Hunknown) as [U1 U2].
  subst common codablock. unfold add_barcode_codablock.
  split; [intros Hrows; split | split; [intros Hrows; split
    | split; [intros Hrows | split; [intros Hrows | split]]]].
  - erewrite _newline_after_returned.
    2:{ do 5 emit. cbn [value_in existsb pyval_eqb String.eqb Ascii.eqb Bool.eqb orb].
        emit. now apply value_in_list_accepted. }
    now tidy.
  - erewrite _newline_after_returned.
    2:{ do 5 emit. cbn [value_in existsb pyval_eqb String.eqb Ascii.eqb Bool.eqb orb].
        emit. now apply value_in_list_accepted. }
    now tidy.
  - apply _newline_after_raised. do 5 emit.
    cbn [value_in existsb pyval_eqb String.eqb Ascii.eqb Bool.eqb orb].
    erewrite bind_raised; [|apply out_of_range_rejected; assumption].
    now tidy.
  - apply _newline_after_raised. do 5 emit.
    cbn [value_in existsb pyval_eqb String.eqb Ascii.eqb Bool.eqb orb].
    erewrite bind_raised; [|apply out_of_range_rejected; assumption].
    now tidy.
  - erewrite _newline_after_returned.
    2:{ do 5 emit. cbn [value_in existsb pyval_eqb String.eqb Ascii.eqb Bool.eqb orb].
        emit. now apply value_in_list_accepted. }
    now tidy.
  - apply _newline_after_raised. do 5 emit.
    cbn [value_in existsb pyval_eqb String.eqb Ascii.eqb Bool.eqb orb].
    erewrite bind_raised; [|apply out_of_range_rejected; assumption].
    now tidy.
  - apply _newline_after_raised. do 5 emit. rewrite U1, U2.
    erewrite bind_returned; [|reflexivity].
    rewrite value_in_list_rejected by assumption.
    now tidy.
  - erewrite _newline_after_returned.
    2:{ do 5 emit. reflexivity. }
    now tidy.
Qed.

Lemma codablock_row_count_depends_on_mode_witness :
  let common := ["^BB"; "N"; ","; str_int 20; ","; "Y"; ","; str_int 30] in
  let codablock := add_barcode_codablock (Some (VStr "N")) (Some 20)
                     (Some (VStr "Y")) (Some 30) in
  (codablock (Some 3) (VStr "F") __init__
   = Returned tt (__init__ ++ common ++ [","; str_int 3; ","; "F"; nl])%list
   /\ codablock (Some 3) (VStr "E") __init__
      = Returned tt (__init__ ++ common ++ [","; str_int 3; ","; "E"; nl])%list)
  /\ codablock (Some 3) (VStr "A") __init__
     = Returned tt (__init__ ++ common ++ [","; str_int 3; ","; "A"; nl])%list
  /\ (codablock (Some 10) (VStr "F") __init__
      = Raised (range_error "row_count for type E and F" 2 4) (__init__ ++ common)%list
      /\ codablock (Some 10) (VStr "E") __init__
         = Raised (range_error "row_count for type E and F" 2 4) (__init__ ++ common)%list)
  /\ codablock (Some 10) (VStr "A") __init__
     = Returned tt (__init__ ++ common ++ [","; str_int 10; ","; "A"; nl])%list
  /\ codablock (Some 23) (VStr "A") __init__
     = Raised (range_error "row_count for type A" 1 22) (__init__ ++ common)%list
  /\ codablock (Some 3) (VStr "X") __init__
     = Raised (list_error "mode" [VStr "A"; VStr "E"; VStr "F"]) (__init__ ++ common)%list
  /\ codablock None (VStr "X") __init__
     = Returned tt (__init__ ++ common ++ [nl])%list.
Proof.
  intros common codablock.
  pose proof (fun rows => codablock_row_count_depends_on_mode __init__
                (VStr "N") (VStr "Y") (VStr "X") 20 30 rows
                eq_refl ltac:(lia) (or_introl eq_refl) ltac:(lia) eq_refl) as H.
  cbv zeta in H. subst common codablock.
  destruct (H 3) as (A3 & _ & B3 & _ & U3 & N3).
  destruct (H 10) as (_ & A10 & B10 & _).
  destruct (H 23) as (_ & _ & _ & B23 & _).
  exact (conj (A3 ltac:(lia))
          (conj (B3 ltac:(lia))
             (conj (A10 ltac:(lia))
                (conj (B10 ltac:(lia))
                   (conj (B23 ltac:(lia)) (conj U3 N3)))))).
Defined.

(** X16. add_barcode_gs1_batabar looks at the width only for symbology
    type 6: for every other type a supplied width is dropped without a
    check, whatever its value; for type 6 an odd width raises 'width must
    be even.' after the other five parameters were appended, and an even
    width in 2..22 is appended. *)
Theorem gs1_width_only_for_type_6 :
  forall (zpl : stream) (orientation separator_height : pyval)
         (symbology_type magnification height any_width even_width odd_width : Z),
    is_orientation orientation ->
    1 <= symbology_type <= 12 ->
    symbology_type <> 6 ->
    1 <= magnification <= 10 ->
    mem (str separator_height) ["1"; "2"] = true ->
    1 <= height <= 32000 ->
    even_width mod 2 = 0 ->
    2 <= even_width <= 22 ->
    odd_width mod 2 = 1 ->
    let rest := [","; str_int magnification; ","; str separator_height;
                 ","; str_int height] in
    add_barcode_gs1_batabar (Some orientation) (Some symbology_type) (Some magnification)
      (Some separator_height) (Some height) (Some any_width) zpl
    = Returned tt (zpl ++ ["^BR"; str orientation; ","; str_int symbology_type]
                   ++ rest ++ [nl])%list
    /\ add_barcode_gs1_batabar (Some orientation) (Some 6) (Some magnification)
         (Some separator_height) (Some height) (Some even_width) zpl
       = Returned tt (zpl ++ ["^BR"; str orientation; ","; str_int 6]
                      ++ rest ++ [","; str_int even_width; nl])%list
    /\ add_barcode_gs1_batabar (Some orientation) (Some 6) (Some magnification)
         (Some separator_height) (Some height) (Some odd_width) zpl
       = Raised (ValueError "width must be even.")
                (zpl ++ ["^BR"; str orientation; ","; str_int 6] ++ rest)%list.
Proof.
  intros zpl o sep st mag h any even odd Ho Hst Hst6 Hmag Hsep Hh Heven Hrange Hodd rest.
  subst rest. unfold add_barcode_gs1_batabar. repeat split.
  - erewrite _newline_after_returned.
    2:{ do 6 emit. apply Z.eqb_neq in Hst6. rewrite Hst6. reflexivity. }
    now tidy.
  - erewrite _newline_after_returned.
    2:{ do 6 emit. rewrite Heven. cbn [Z.eqb negb Pos.eqb]. cbv beta iota.
        now apply in_range_accepted. }
    now tidy.
  - apply _newline_after_raised. do 6 emit. rewrite Hodd.
    cbn [Z.eqb negb Pos.eqb]. cbv beta iota. unfold raise. now tidy.
Qed.

Lemma gs1_width_only_for_type_6_witness :
  let rest := [","; str_int 3; ","; str (VInt 1); ","; str_int 10] in
  add_barcode_gs1_batabar (Some (VStr "N")) (Some 5) (Some 3) (Some (VInt 1)) (Some 10)
    (Some 7) __init__
  = Returned tt (__init__ ++ ["^BR"; "N"; ","; str_int 5] ++ rest ++ [nl])%list
  /\ add_barcode_gs1_batabar (Some (VStr "N")) (Some 6) (Some 3) (Some (VInt 1)) (Some 10)
       (Some 8) __init__
     = Returned tt (__init__ ++ ["^BR"; "N"; ","; str_int 6]
                    ++ rest ++ [","; str_int 8; nl])%list
  /\ add_barcode_gs1_batabar (Some (VStr "N")) (Some 6) (Some 3) (Some (VInt 1)) (Some 10)
       (Some 7) __init__
     = Raised (ValueError "width must be even.")
              (__init__ ++ ["^BR"; "N"; ","; str_int 6] ++ rest)%list.
Proof.
  apply (gs1_width_only_for_type_6 __init__ (VStr "N") (VInt 1) 5 3 10 7 8 7).
  - reflexivity.
  - lia.
  - lia.
  - lia.
  - reflexivity.
  - lia.
  - reflexivity.
  - lia.
  - reflexivity.
Defined.

(** X17. In add_barcode_data_matrix the parity of the columns depends on
    the quality: with the integer 200 an odd number of columns raises and
    an even number in 9..49 is appended; with one of 0, 50, 80, 100, 140
    an even number raises and an odd number in 9..49 is appended.  The
    quality passed as the string '200' is accepted as a quality and is
    then treated as one of the others: it wants an odd number of
    columns. *)
Theorem data_matrix_columns_parity :
  forall (zpl : stream) (orientation : pyval) (height quality even_columns odd_columns : Z),
    is_orientation orientation ->
    1 <= height <= 32000 ->
    quality = 0 \/ quality = 50 \/ quality = 80 \/ quality = 100 \/ quality = 140 ->
    even_columns mod 2 = 0 -> 9 <= even_columns <= 49 ->
    odd_columns mod 2 = 1 -> 9 <= odd_columns <= 49 ->
    let matrix q c := add_barcode_data_matrix (Some orientation) (Some height)
                        (Some q) (Some c) None None None None in
    let common q := ["^BX"; str orientation; ","; str_int height; ","; q] in
    matrix (VInt 200) even_columns zpl
    = Returned tt (zpl ++ common "200" ++ [","; str_int even_columns; nl])%list
    /\ matrix (VInt 200) odd_columns zpl
       = Raised (ValueError "columns must be even for quality of 200.")
                (zpl ++ common "200")%list
    /\ matrix (VInt quality) odd_columns zpl
       = Returned tt (zpl ++ common (str_int quality) ++ [","; str_int odd_columns; nl])%list
    /\ matrix (VInt quality) even_columns zpl
       = Raised (ValueError "columns must be odd for quality of (0, 50, 80, 100, 140).")
                (zpl ++ common (str_int quality))%list
    /\ matrix (VStr "200") odd_columns zpl
       = Returned tt (zpl ++ common "200" ++ [","; str_int odd_columns; nl])%list
    /\ matrix (VStr "200") even_columns zpl
       = Raised (ValueError "columns must be odd for quality of (0, 50, 80, 100, 140).")
                (zpl ++ common "200")%list.
Proof.
  intros zpl o h q even odd Ho Hh Hq Heven Re Hodd Ro matrix common.
  assert (Q : mem (str (VInt q))
                (map str [VInt 0; VInt 50; VInt 80; VInt 100; VInt 140; VInt 200]) = true)
    by (destruct Hq as [-> | [-> | [-> | [-> | ->]]]]; reflexivity).
  assert (N : pyval_eqb (VInt q) (VInt 200) = false)
    by (destruct Hq as [-> | [-> | [-> | [-> | ->]]]]; reflexivity).
  subst matrix common. unfold add_barcode_data_matrix. repeat split.
  - erewrite _newline_after_returned.
    2:{ do 4 emit. cbn [pyval_eqb Z.eqb Pos.eqb]. rewrite Heven. cbn [Z.eqb].
        erewrite bind_returned; [|reflexivity]. emit. reflexivity. }
    now tidy.
  - apply _newline_after_raised. do 4 emit.
    cbn [pyval_eqb Z.eqb Pos.eqb]. rewrite Hodd. cbn [Z.eqb Pos.eqb].
    erewrite bind_raised; [|reflexivity]. now tidy.
  - erewrite _newline_after_returned.
    2:{ do 4 emit. rewrite N, Hodd. cbn [Z.eqb].
        erewrite bind_returned; [|reflexivity]. emit. reflexivity. }
    now tidy.
  - apply _newline_after_raised. do 4 emit. rewrite N, Heven. cbn [Z.eqb].
    erewrite bind_raised; [|reflexivity]. now tidy.
  - erewrite _newline_after_returned.
    2:{ do 4 emit. cbn [pyval_eqb]. rewrite Hodd. cbn [Z.eqb].
        erewrite bind_returned; [|reflexivity]. emit. reflexivity. }
    now tidy.
  - apply _newline_after_raised. do 4 emit. cbn [pyval_eqb]. rewrite Heven. cbn [Z.eqb].
    erewrite bind_raised; [|reflexivity]. now tidy.
Qed.

Lemma data_matrix_columns_parity_witness :
  let matrix q c := add_barcode_data_matrix (Some (VStr "N")) (Some 5)
                      (Some q) (Some c) None None None None in
  let common q := ["^BX"; "N"; ","; str_int 5; ","; q] in
  matrix (VInt 200) 10 __init__
  = Returned tt (__init__ ++ common "200" ++ [","; str_int 10; nl])%list
  /\ matrix (VInt 200) 11 __init__
     = Raised (ValueError "columns must be even for quality of 200.")
              (__init__ ++ common "200")%list
  /\ matrix (VInt 50) 11 __init__
     = Returned tt (__init__ ++ common (str_int 50) ++ [","; str_int 11; nl])%list
  /\ matrix (VInt 50) 10 __init__
     = Raised (ValueError "columns must be odd for quality of (0, 50, 80, 100, 140).")
              (__init__ ++ common (str_int 50))%list
  /\ matrix (VStr "200") 11 __init__
     = Returned tt (__init__ ++ common "200" ++ [","; str_int 11; nl])%list
  /\ matrix (VStr "200") 10 __init__
     = Raised (ValueError "columns must be odd for quality of (0, 50, 80, 100, 140).")
              (__init__ ++ common "200")%list.
Proof.
  apply (data_matrix_columns_parity __init__ (VStr "N") 5 50 10 11).
  - reflexivity.
  - lia.
  - right; left; reflexivity.
  - reflexivity.
  - lia.
  - reflexivity.
  - lia.
Defined.

(** ** Digits-only field data *)

Lemma negative_is_not_digits (n : Z) : n < 0 -> isdigit (str_int n) = false.
Proof. destruct n as [|p|p]; intros H; try lia. reflexivity. Qed.

(** X18. The field data methods of the digits-only symbologies
    (Interleaved, Industrial and Standard 2 of 5, Planet Code, Postal,
    EAN-8, UPC-E) append a payload that str.isdigit accepts and raise
    'Data must contain only digits.' with nothing appended on any other
    payload, the empty string included; EAN-13 and UPC-A raise in the same
    way instead of padding such a payload, and EAN-13 raises on every
    negative integer. *)
Theorem digits_only_field_data :
  forall (zpl : stream) (good bad : string) (negative : Z),
    isdigit good = true ->
    isdigit bad = false ->
    negative < 0 ->
    (add_field_data_interleaved_2_of_5 good zpl
     = Returned tt (zpl ++ [field_data good; nl])%list
     /\ add_field_data_industrial_2_of_5 good zpl
        = Returned tt (zpl ++ [field_data good; nl])%list
     /\ add_field_data_standard_2_of_5 good zpl
        = Returned tt (zpl ++ [field_data good; nl])%list
     /\ add_field_data_planet_code good zpl
        = Returned tt (zpl ++ [field_data good; nl])%list
     /\ add_field_data_postal good zpl
        = Returned tt (zpl ++ [field_data good; nl])%list
     /\ add_field_data_ean_8 good zpl
        = Returned tt (zpl ++ [field_data good; nl])%list
     /\ add_field_data_upc_e good zpl
        = Returned tt (zpl ++ [field_data good; nl])%list)
    /\ (add_field_data_interleaved_2_of_5 bad zpl = Raised not_digits zpl
        /\ add_field_data_industrial_2_of_5 bad zpl = Raised not_digits zpl
        /\ add_field_data_standard_2_of_5 bad zpl = Raised not_digits zpl
        /\ add_field_data_planet_code bad zpl = Raised not_digits zpl
        /\ add_field_data_postal bad zpl = Raised not_digits zpl
        /\ add_field_data_ean_8 bad zpl = Raised not_digits zpl
        /\ add_field_data_upc_e bad zpl = Raised not_digits zpl)
    /\ (add_field_data_ean_13 (VStr bad) zpl = Raised not_digits zpl
        /\ add_field_data_upc_a bad zpl = Raised not_digits zpl
        /\ add_field_data_ean_13 (VInt negative) zpl = Raised not_digits zpl).
Proof.
  intros zpl good bad negative Hgood Hbad Hneg.
  pose proof (negative_is_not_digits negative Hneg) as Hn.
  repeat split.
  1-7: (unfold add_field_data_interleaved_2_of_5, add_field_data_industrial_2_of_5,
          add_field_data_standard_2_of_5, add_field_data_planet_code,
          add_field_data_postal, add_field_data_ean_8, add_field_data_upc_e;
        step verified_numeric; apply add_field_data_text).
  1-7: (unfold add_field_data_interleaved_2_of_5, add_field_data_industrial_2_of_5,
          add_field_data_standard_2_of_5, add_field_data_planet_code,
          add_field_data_postal, add_field_data_ean_8, add_field_data_upc_e;
        apply bind_raised; now apply rejected_numeric).
  - unfold add_field_data_ean_13. cbv zeta. apply bind_raised. now apply rejected_numeric.
  - unfold add_field_data_upc_a. apply bind_raised. now apply rejected_numeric.
  - unfold add_field_data_ean_13. cbv zeta. apply bind_raised. now apply rejected_numeric.
Qed.

Lemma digits_only_field_data_witness :
  (add_field_data_interleaved_2_of_5 "0123" __init__
   = Returned tt (__init__ ++ [field_data "0123"; nl])%list
   /\ add_field_data_industrial_2_of_5 "0123" __init__
      = Returned tt (__init__ ++ [field_data "0123"; nl])%list
   /\ add_field_data_standard_2_of_5 "0123" __init__
      = Returned tt (__init__ ++ [field_data "0123"; nl])%list
   /\ add_field_data_planet_code "0123" __init__
      = Returned tt (__init__ ++ [field_data "0123"; nl])%list
   /\ add_field_data_postal "0123" __init__
      = Returned tt (__init__ ++ [field_data "0123"; nl])%list
   /\ add_field_data_ean_8 "0123" __init__
      = Returned tt (__init__ ++ [field_data "0123"; nl])%list
   /\ add_field_data_upc_e "0123" __init__
      = Returned tt (__init__ ++ [field_data "0123"; nl])%list)
  /\ (add_field_data_interleaved_2_of_5 "" __init__ = Raised not_digits __init__
      /\ add_field_data_industrial_2_of_5 "" __init__ = Raised not_digits __init__
      /\ add_field_data_standard_2_of_5 "" __init__ = Raised not_digits __init__
      /\ add_field_data_planet_code "" __init__ = Raised not_digits __init__
      /\ add_field_data_postal "" __init__ = Raised not_digits __init__
      /\ add_field_data_ean_8 "" __init__ = Raised not_digits __init__
      /\ add_field_data_upc_e "" __init__ = Raised not_digits __init__)
  /\ (add_field_data_ean_13 (VStr "") __init__ = Raised not_digits __init__
      /\ add_field_data_upc_a "" __init__ = Raised not_digits __init__
      /\ add_field_data_ean_13 (VInt (-5)) __init__ = Raised not_digits __init__).
Proof.
  apply (digits_only_field_data __init__ "0123" "" (-5)).
  - reflexivity.
  - reflexivity.
  - lia.
Defined.

(** X19. add_field_data_upc_ean_extensions takes payloads of 2 or 5
    characters only, and checks the length before the content: any other
    length raises the length error even for digits, a payload of 2 or 5
    characters that is not all digits raises the digits error, and 2 or 5
    digits are appended. *)
Theorem upc_ean_extensions_lengths :
  forall (zpl : stream) (good wrong_length not_numeric : string),
    len good = 2 \/ len good = 5 ->
    isdigit good = true ->
    len wrong_length <> 2 ->
    len wrong_length <> 5 ->
    len not_numeric = 2 \/ len not_numeric = 5 ->
    isdigit not_numeric = false ->
    add_field_data_upc_ean_extensions good zpl
    = Returned tt (zpl ++ [field_data good; nl])%list
    /\ add_field_data_upc_ean_extensions wrong_length zpl
       = Raised (ValueError "UPC/EAN Extension barcode is limited to 2 or 5 digits only.")
                zpl
    /\ add_field_data_upc_ean_extensions not_numeric zpl = Raised not_digits zpl.
Proof.
  intros zpl good wrong bad Hgood Dgood W2 W5 Hbad Dbad.
  unfold add_field_data_upc_ean_extensions. repeat split.
  - replace ((len good =? 2) || (len good =? 5)) with true
      by (symmetry; destruct Hgood as [-> | ->]; reflexivity).
    cbn [negb]. cbv iota. step verified_numeric. apply add_field_data_text.
  - apply Z.eqb_neq in W2. apply Z.eqb_neq in W5. now rewrite W2, W5.
  - replace ((len bad =? 2) || (len bad =? 5)) with true
      by (symmetry; destruct Hbad as [-> | ->]; reflexivity).
    cbn [negb]. cbv iota. apply bind_raised. now apply rejected_numeric.
Qed.

Lemma upc_ean_extensions_lengths_witness :
  add_field_data_upc_ean_extensions "12345" __init__
  = Returned tt (__init__ ++ [field_data "12345"; nl])%list
  /\ add_field_data_upc_ean_extensions "123" __init__
     = Raised (ValueError "UPC/EAN Extension barcode is limited to 2 or 5 digits only.")
              __init__
  /\ add_field_data_upc_ean_extensions "1a" __init__ = Raised not_digits __init__.
Proof.
  apply (upc_ean_extensions_lengths __init__ "12345" "123" "1a").
  - right; reflexivity.
  - reflexivity.
  - vm_compute; discriminate.
  - vm_compute; discriminate.
  - left; reflexivity.
  - reflexivity.
Defined.

(** X20. add_field_data_msi never checks the check digit mode itself:
    every mode other than 'B', 'C' and 'D' (an unknown letter, a number,
    the 'C,' that add_barcode_msi accepts) gets the limit of 14
    characters. *)
Theorem msi_unknown_mode_gets_14 :
  forall (zpl : stream) (mode : option pyval) (upto14 over14 : string),
    value_in mode [VStr "B"; VStr "C"; VStr "D"] = false ->
    isdigit upto14 = true ->
    len upto14 <= 14 ->
    14 < len over14 ->
    add_field_data_msi upto14 mode zpl
    = Returned tt (zpl ++ [field_data upto14; nl])%list
    /\ add_field_data_msi over14 mode zpl = Raised msi_too_long zpl.
Proof.
  intros zpl mode upto14 over14 Hmode Hd Hlen Hover.
  unfold add_field_data_msi. rewrite Hmode. split.
  - rewrite gtb_within by assumption. step verified_numeric. apply add_field_data_text.
  - now rewrite gtb_over.
Qed.

Lemma msi_unknown_mode_gets_14_witness :
  add_field_data_msi "12345678901234" (Some (VStr "C,")) __init__
  = Returned tt (__init__ ++ [field_data "12345678901234"; nl])%list
  /\ add_field_data_msi "123456789012345" (Some (VStr "C,")) __init__
     = Raised msi_too_long __init__.
Proof.
  apply (msi_unknown_mode_gets_14 __init__ (Some (VStr "C,"))
           "12345678901234" "123456789012345").
  - reflexivity.
  - reflexivity.
  - vm_compute; discriminate.
  - reflexivity.
Defined.

(** ** Rendering a document *)

Lemma join_cons (x : string) (l : list string) :
  join "" (x :: l) = x ++ join "" l.
Proof.
  unfold join. destruct l as [|y l]; simpl; [now rewrite append_empty | reflexivity].
Qed.

Lemma append_assoc (a b c : string) : (a ++ b) ++ c = a ++ (b ++ c).
Proof. induction a as [|x a IH]; simpl; [reflexivity | now rewrite IH]. Qed.

Lemma join_app (l m : list string) :
  join "" (l ++ m)%list = join "" l ++ join "" m.
Proof.
  induction l as [|x l IH]; [reflexivity|].
  change ((x :: l) ++ m)%list with (x :: (l ++ m))%list.
  now rewrite !join_cons, IH, append_assoc.
Qed.

Lemma utf8_append (s t : string) : utf8 (s ++ t) = (utf8 s ++ utf8 t)%list.
Proof.
  induction s as [|c s IH]; simpl; [reflexivity|].
  now rewrite IH, app_assoc.
Qed.

(** X21. The rendered text is the concatenation of the fragments in the
    order they were appended, followed by '^XZ': the text of a stream that
    grew by some fragments is the text of the fragments before, then the
    added ones, then '^XZ', and the bytes split in the same way.  A
    document that received a field origin and a field data renders as
    '^XA', newline, '^FOx,y', newline, '^FDdata^FS', newline, '^XZ'. *)
Theorem rendering_follows_the_stream :
  forall (zpl added : list string) (x_pos y_pos : Z) (data : string),
    0 <= x_pos <= 32000 ->
    0 <= y_pos <= 32000 ->
    zpl_text (zpl ++ added)%list
    = Returned (join "" zpl ++ join "" added ++ "^XZ") (zpl ++ added)%list
    /\ zpl_bytes (zpl ++ added)%list
       = Returned (utf8 (join "" zpl) ++ utf8 (join "" added) ++ utf8 "^XZ")%list
                  (zpl ++ added)%list
    /\ zpl_text (__init__ ++ added)%list
       = Returned ("^XA" ++ nl ++ join "" added ++ "^XZ") (__init__ ++ added)%list
    /\ (add_field_origin (Some x_pos) (Some y_pos) None ;;
        add_field_data (Text data) false ;;
        zpl_text) __init__
       = Returned ("^XA" ++ nl
                   ++ "^FO" ++ str_int x_pos ++ "," ++ str_int y_pos ++ nl
                   ++ "^FD" ++ data ++ "^FS" ++ nl
                   ++ "^XZ")
                  (__init__ ++ ["^FO"; str_int x_pos; ","; str_int y_pos; nl;
                                field_data data; nl])%list.
Proof.
  intros zpl added x y data Hx Hy.
  assert (T0 : forall l : list string,
               zpl_text l = Returned (join "" l ++ "^XZ") l).
  { intros l. unfold zpl_text. rewrite join_app.
    unfold END_. now rewrite join_cons, append_empty. }
  assert (T : forall l m : list string,
              zpl_text (l ++ m)%list
              = Returned (join "" l ++ join "" m ++ "^XZ") (l ++ m)%list).
  { intros l m. now rewrite T0, join_app, append_assoc. }
  repeat split.
  - apply T.
  - unfold zpl_bytes. erewrite bind_returned by apply T.
    unfold ret. now rewrite !utf8_append.
  - now rewrite T.
  - erewrite bind_returned.
    2:{ unfold add_field_origin. erewrite _newline_after_returned.
        2:{ opcode. do 2 step in_range_accepted. reflexivity. }
        reflexivity. }
    erewrite bind_returned by apply add_field_data_text.
    rewrite T0. tidy. f_equal.
    repeat (rewrite append_assoc; simpl). reflexivity.
Qed.

Lemma rendering_follows_the_stream_witness :
  zpl_text (__init__ ++ ["^FX"; nl])%list
  = Returned (join "" __init__ ++ join "" ["^FX"; nl] ++ "^XZ") (__init__ ++ ["^FX"; nl])%list
  /\ zpl_bytes (__init__ ++ ["^FX"; nl])%list
     = Returned (utf8 (join "" __init__) ++ utf8 (join "" ["^FX"; nl]) ++ utf8 "^XZ")%list
                (__init__ ++ ["^FX"; nl])%list
  /\ zpl_text (__init__ ++ ["^FX"; nl])%list
     = Returned ("^XA" ++ nl ++ join "" ["^FX"; nl] ++ "^XZ") (__init__ ++ ["^FX"; nl])%list
  /\ (add_field_origin (Some 10) (Some 20) None ;;
      add_field_data (Text "hello") false ;;
      zpl_text) __init__
     = Returned ("^XA" ++ nl
                 ++ "^FO" ++ str_int 10 ++ "," ++ str_int 20 ++ nl
                 ++ "^FD" ++ "hello" ++ "^FS" ++ nl
                 ++ "^XZ")
                (__init__ ++ ["^FO"; str_int 10; ","; str_int 20; nl;
                              field_data "hello"; nl])%list.
Proof.
  apply (rendering_follows_the_stream __init__ ["^FX"; nl] 10 20 "hello").
  - lia.
  - lia.
Defined.

(** ** More on field data *)

Lemma all_chars_append p (s t : string) :
  all_chars p (s ++ t) = all_chars p s && all_chars p t.
Proof.
  induction s as [|c s IH]; simpl; [reflexivity|].
  now rewrite IH, andb_assoc.
Qed.

(** Two blocks or more join into a string that holds a comma. *)
Lemma joined_blocks_not_alnum (a b : string) (rest : list string) :
  isalnum (join "," (a :: b :: rest)) = false.
Proof.
  unfold isalnum.
  change (join "," (a :: b :: rest)) with (a ++ "," ++ join "," (b :: rest)).
  rewrite all_chars_append. simpl. rewrite andb_false_r. apply andb_false_r.
Qed.

Lemma check_blocks_outcome (blocks : list string) (zpl : stream) :
  check_blocks blocks zpl = Returned tt zpl
  \/ check_blocks blocks zpl
     = Raised (ValueError "additional_data blocks are limited to 25 characters.") zpl.
Proof.
  induction blocks as [|block blocks IH]; simpl; [now left|].
  destruct (len block >=? 25); [now right | exact IH].
Qed.

(** X22. add_field_data_tlc39 never accepts additional data given as a
    list of two or more blocks: with a valid eci_number and serial number
    the call raises a ValueError and appends nothing, whatever the blocks
    are, because the comma that joins them is not alphanumeric; when the
    blocks pass the two length checks the error is 'additional_data must
    be alphanumeric.'. *)
Theorem tlc39_lists_of_blocks_always_raise :
  forall (zpl : stream) (eci_number serial_number a b c d : string)
         (rest more : list string),
    len eci_number = 6 -> isdigit eci_number = true ->
    1 <= len serial_number <= 26 -> isalnum serial_number = true ->
    blocks_under_25 (c :: d :: more) = true ->
    len (join "," (c :: d :: more)) <= 139 ->
    (exists msg : string,
        add_field_data_tlc39 eci_number (Some serial_number)
          (Some (Segments (a :: b :: rest))) zpl
        = Raised (ValueError msg) zpl)
    /\ add_field_data_tlc39 eci_number (Some serial_number)
         (Some (Segments (c :: d :: more))) zpl
       = Raised (ValueError "additional_data must be alphanumeric.") zpl.
Proof.
  intros zpl eci sn a b c d rest more Heci Deci [Hsn1 Hsn2] Asn Hunder Hjoined.
  assert (S1 : (1 <=? len sn) = true) by now apply Z.leb_le.
  assert (S2 : (len sn <=? 26) = true) by now apply Z.leb_le.
  split; unfold add_field_data_tlc39;
    rewrite Heci, Deci, S1, S2, Asn; cbn [andb negb Z.eqb Pos.eqb]; cbv iota.
  - destruct (check_blocks_outcome (a :: b :: rest) zpl) as [E | E].
    + destruct (len (join "," (a :: b :: rest)) >? 139) eqn:L.
      * eexists. apply _newline_after_raised.
        erewrite bind_returned.
        2:{ erewrite bind_returned by exact E. reflexivity. }
        rewrite L. reflexivity.
      * eexists. apply _newline_after_raised.
        erewrite bind_returned.
        2:{ erewrite bind_returned by exact E. reflexivity. }
        rewrite L, joined_blocks_not_alnum. reflexivity.
    + eexists. apply _newline_after_raised.
      apply bind_raised. apply bind_raised. exact E.
  - apply _newline_after_raised.
    erewrite bind_returned.
    2:{ erewrite bind_returned by (now apply check_blocks_pass). reflexivity. }
    rewrite gtb_within by assumption. now rewrite joined_blocks_not_alnum.
Qed.

Lemma tlc39_lists_of_blocks_always_raise_witness :
  (exists msg : string,
      add_field_data_tlc39 "123456" (Some "SN1")
        (Some (Segments ("US" :: "CA" :: []))) __init__
      = Raised (ValueError msg) __init__)
  /\ add_field_data_tlc39 "123456" (Some "SN1")
       (Some (Segments ("US" :: "CA" :: []))) __init__
     = Raised (ValueError "additional_data must be alphanumeric.") __init__.
Proof.
  apply (tlc39_lists_of_blocks_always_raise __init__ "123456" "SN1" "US" "CA" "US" "CA" [] []).
  - reflexivity.
  - reflexivity.
  - vm_compute; split; discriminate.
  - reflexivity.
  - reflexivity.
  - vm_compute; discriminate.
Defined.

Lemma no_newline_escape : no_newline "\&" = true.
Proof. reflexivity. Qed.

Lemma no_newline_replaced (s : string) :
  no_newline (replace_newline "\&" s) = true.
Proof.
  unfold no_newline. induction s as [|c s IH]; simpl; [reflexivity|].
  destruct (Ascii.eqb c newline) eqn:E.
  - simpl. exact IH.
  - simpl. rewrite E. exact IH.
Qed.

Lemma replace_newline_clean (new s : string) :
  no_newline s = true -> replace_newline new s = s.
Proof.
  unfold no_newline. induction s as [|c s IH]; simpl; [reflexivity|].
  intros H. apply andb_true_iff in H. destruct H as [Hc Hs].
  apply negb_true_iff in Hc. rewrite Hc. now rewrite IH.
Qed.

(** X23. With replace_newlines set, the field data that add_field_data
    appends for a string holds no newline character; a string without a
    newline is appended as it is, and the flag then makes no difference;
    without the flag the string is appended as it is, newlines
    included. *)
Theorem replace_newlines_leaves_no_newline :
  forall (zpl : stream) (text clean : string),
    no_newline clean = true ->
    (exists escaped : string,
        add_field_data (Text text) true zpl
        = Returned tt (zpl ++ [field_data escaped; nl])%list
        /\ no_newline escaped = true)
    /\ add_field_data (Text clean) true zpl
       = Returned tt (zpl ++ [field_data clean; nl])%list
    /\ add_field_data (Text text) false zpl
       = Returned tt (zpl ++ [field_data text; nl])%list.
Proof.
  intros zpl text clean Hclean.
  assert (R : forall s, add_field_data (Text s) true zpl
              = Returned tt (zpl ++ [field_data (replace_newline "\&" s); nl])%list).
  { intros s. unfold add_field_data. erewrite _newline_after_returned.
    2:{ erewrite bind_returned; [|reflexivity]. apply append_run. }
    now tidy. }
  repeat split.
  - exists (replace_newline "\&" text). split; [apply R | apply no_newline_replaced].
  - rewrite R. now rewrite replace_newline_clean.
  - apply add_field_data_text.
Qed.

Lemma replace_newlines_leaves_no_newline_witness :
  (exists escaped : string,
      add_field_data (Text ("a" ++ nl ++ "b")) true __init__
      = Returned tt (__init__ ++ [field_data escaped; nl])%list
      /\ no_newline escaped = true)
  /\ add_field_data (Text "ab") true __init__
     = Returned tt (__init__ ++ [field_data "ab"; nl])%list
  /\ add_field_data (Text ("a" ++ nl ++ "b")) false __init__
     = Returned tt (__init__ ++ [field_data ("a" ++ nl ++ "b"); nl])%list.
Proof.
  apply (replace_newlines_leaves_no_newline __init__ ("a" ++ nl ++ "b") "ab").
  reflexivity.
Defined.

(** ** The first gap *)

(** Runs a command whose first optional parameter is missing. *)
Ltac halts :=
  intros;
  match goal with
  | |- ?m _ = _ =>
      let rec head t := match t with ?f _ => head f | _ => t end in
      let f := head m in
      unfold f
  end;
  erewrite _newline_after_returned;
  [ | solve [ apply standard_1d_without_orientation
            | opcode; reflexivity
            | apply append_run
            | reflexivity ] ];
  tidy; reflexivity.

(** X24. A command whose first optional parameter is missing appends its
    opcode and the newline and nothing else, whatever is passed for the
    later parameters: none of them is validated, so not even an invalid
    one raises.  This holds for the positioning, text and graphics
    commands, for the two-dimensional bar codes and for the bar codes that
    add nothing after the common one-dimensional part, Industrial 2 of 5
    included. *)
Theorem commands_halt_on_a_missing_first_parameter :
  forall zpl : stream,
    ((forall f h w, add_font f None h w zpl = Returned tt (zpl ++ ["^A"; f; nl])%list)
     /\ (forall y, add_label_home None y zpl = Returned tt (zpl ++ ["^LH"; nl])%list)
     /\ (forall y j, add_field_origin None y j zpl = Returned tt (zpl ++ ["^FO"; nl])%list)
     /\ (forall m d t h,
           add_field_block None m d t h zpl = Returned tt (zpl ++ ["^FB"; nl])%list)
     /\ (forall h b c r,
           add_graphic_box None h b c r zpl = Returned tt (zpl ++ ["^GB"; nl])%list)
     /\ (forall b c, add_graphic_circle None b c zpl = Returned tt (zpl ++ ["^GC"; nl])%list)
     /\ (forall r h, add_barcode_default None r h zpl = Returned tt (zpl ++ ["^BY"; nl])%list))
    /\ ((forall m e s u n i,
           add_barcode_aztec None m e s u n i zpl = Returned tt (zpl ++ ["^B0"; nl])%list)
        /\ (forall h p t s,
              add_barcode_code_49 None h p t s zpl = Returned tt (zpl ++ ["^B4"; nl])%list)
        /\ (forall h s c r t,
              add_barcode_pdf417 None h s c r t zpl = Returned tt (zpl ++ ["^B7"; nl])%list)
        /\ (forall h s c r m,
              add_barcode_codablock None h s c r m zpl
              = Returned tt (zpl ++ ["^BB"; nl])%list)
        /\ (forall n c,
              add_barcode_ups_maxicode None n c zpl = Returned tt (zpl ++ ["^BD"; nl])%list)
        /\ (forall h m,
              add_barcode_micropdf_417 None h m zpl = Returned tt (zpl ++ ["^BF"; nl])%list)
        /\ (forall c h p t i,
              add_barcode_msi None c h p t i zpl = Returned tt (zpl ++ ["^BM"; nl])%list)
        /\ (forall g e k,
              add_barcode_qr None g e k zpl = Returned tt (zpl ++ ["^BQN"; nl])%list)
        /\ (forall s m p h w,
              add_barcode_gs1_batabar None s m p h w zpl
              = Returned tt (zpl ++ ["^BR"; nl])%list)
        /\ (forall w r h mh mw,
              add_barcode_tlc39 None w r h mh mw zpl = Returned tt (zpl ++ ["^BT"; nl])%list)
        /\ (forall h q c r f e a,
              add_barcode_data_matrix None h q c r f e a zpl
              = Returned tt (zpl ++ ["^BX"; nl])%list))
    /\ ((forall c h p t,
           add_barcode_code_11 None c h p t zpl = Returned tt (zpl ++ ["^B1"; nl])%list)
        /\ (forall h p t c,
              add_barcode_interleaved_2_of_5 None h p t c zpl
              = Returned tt (zpl ++ ["^B2"; nl])%list)
        /\ (forall c h p t,
              add_barcode_code_39 None c h p t zpl = Returned tt (zpl ++ ["^B3"; nl])%list)
        /\ (forall h p t,
              add_barcode_planet_code None h p t zpl = Returned tt (zpl ++ ["^B5"; nl])%list)
        /\ (forall h p t,
              add_barcode_ean_8 None h p t zpl = Returned tt (zpl ++ ["^B8"; nl])%list)
        /\ (forall h p t c,
              add_barcode_upc_e None h p t c zpl = Returned tt (zpl ++ ["^B9"; nl])%list)
        /\ (forall h p t c,
              add_barcode_code_93 None h p t c zpl = Returned tt (zpl ++ ["^BA"; nl])%list)
        /\ (forall h p t c,
              add_barcode_code_128 None h p t c zpl = Returned tt (zpl ++ ["^BC"; nl])%list)
        /\ (forall h p t,
              add_barcode_ean_13 None h p t zpl = Returned tt (zpl ++ ["^BE"; nl])%list)
        /\ (forall h p t,
              add_barcode_industrial_2_of_5 None h p t zpl
              = Returned tt (zpl ++ ["^BI"; nl])%list)
        /\ (forall h p t,
              add_barcode_standard_2_of_5 None h p t zpl
              = Returned tt (zpl ++ ["^BJ"; nl])%list)
        /\ (forall c h p t,
              add_barcode_plessey None c h p t zpl = Returned tt (zpl ++ ["^BP"; nl])%list)
        /\ (forall h p t,
              add_barcode_upc_ean_extensions None h p t zpl
              = Returned tt (zpl ++ ["^BS"; nl])%list)
        /\ (forall h p t c,
              add_barcode_upc_a None h p t c zpl = Returned tt (zpl ++ ["^BU"; nl])%list)).
Proof.
  intros zpl. repeat split.
  - intros f h w. unfold add_font. erewrite _newline_after_returned.
    2:{ do 2 opcode. reflexivity. }
    now tidy.
  - halts.
  - halts.
  - halts.
  - halts.
  - halts.
  - halts.
  - halts.
  - halts.
  - halts.
  - halts.
  - halts.
  - halts.
  - halts.
  - halts.
  - halts.
  - halts.
  - halts.
  - halts.
  - halts.
  - halts.
  - halts.
  - halts.
  - halts.
  - halts.
  - halts.
  - halts.
  - halts.
  - halts.
  - halts.
  - halts.
  - halts.
Qed.

(** ** Industrial 2 of 5 *)



